(** * scrapegraph-mcp: the tool layer of [scrapegraph_mcp/server.py]

    A shallow embedding of the ScapeGraph MCP server: the HTTP client
    [ScapeGraphClient], the credential resolver [get_api_key] and the eight
    tools registered with [@mcp.tool].  Python values that cross the tool
    boundary are JSON values; exceptions and the outbound HTTP traffic are made
    explicit by a small monad that threads the list of requests sent so far.

    Two things live outside the module and are taken as they come: the
    standard [json.loads] and the remote API behind the [httpx] client.  Both
    are fields of a [World] every computation reads. *)

From Stdlib Require Import String Ascii List ZArith QArith Bool Lia.
From Stdlib Require Import DecimalString.
Import ListNotations.

Local Open Scope string_scope.
Local Open Scope Z_scope.

(** ** Strings *)

(** [f"{n}"] for a Python [int]. *)
Definition str_of_int (n : Z) : string :=
  NilZero.string_of_int (Z.to_int n).

(** The newline character, ["\n"]. *)
Definition nl : string := String (ascii_of_nat 10) EmptyString.

(** [s] between double quotes, as a JSON text spells a string. *)
Definition quoted (s : string) : string :=
  String (ascii_of_nat 34) s ++ String (ascii_of_nat 34) EmptyString.

(** [t.startswith(s)]. *)
Fixpoint startswith (s t : string) : bool :=
  match s, t with
  | EmptyString, _ => true
  | String a s', String b t' => Ascii.eqb a b && startswith s' t'
  | String _ _, EmptyString => false
  end.

(** [s in t] for two strings. *)
Fixpoint infixb (s t : string) : bool :=
  startswith s t ||
  match t with
  | EmptyString => false
  | String _ t' => infixb s t'
  end.

(** The same as a proposition: [t] is [pre ++ s ++ post]. *)
Definition contains (t s : string) : Prop :=
  exists pre post, t = pre ++ s ++ post.

(** ** JSON values and Python dictionaries *)

(** What [json.loads] produces and what [json=...] serialises.  A [float] is
    kept by its lexeme; a [dict] keeps its insertion order, as in Python. *)
#[warnings="-register-all"]
Inductive Json : Type :=
| JNull
| JBool (b : bool)
| JInt (n : Z)
| JFloat (lexeme : string)
| JStr (s : string)
| JArr (items : list Json)
| JObj (members : list (string * Json)).

Definition Dict : Type := list (string * Json).

(** [d.get(k)] *)
Fixpoint dict_get (k : string) (d : Dict) : option Json :=
  match d with
  | [] => None
  | (k', v) :: d' => if String.eqb k k' then Some v else dict_get k d'
  end.

(** [k in d] *)
Definition dict_mem (k : string) (d : Dict) : bool :=
  match dict_get k d with Some _ => true | None => false end.

(** [d[k] = v]: an existing key keeps its place, a new one goes last. *)
Fixpoint dict_set (k : string) (v : Json) (d : Dict) : Dict :=
  match d with
  | [] => [(k, v)]
  | (k', v') :: d' =>
      if String.eqb k k' then (k', v) :: d' else (k', v') :: dict_set k v d'
  end.

(** [if x is not None: d[k] = x], the idiom of every payload builder. *)
Definition dict_set_opt (k : string) (x : option Json) (d : Dict) : Dict :=
  match x with
  | Some v => dict_set k v d
  | None => d
  end.

Definition is_str (v : Json) : bool :=
  match v with JStr _ => true | _ => false end.

(** ** Exceptions *)

(** The exception classes the module raises or lets through, each with its
    [str(e)].  [JSONDecodeError] derives from [ValueError], and [ValueError]
    stands for the class and its other subclasses; [HTTPStatusError] and the
    transport errors derive from [httpx.HTTPError]; [TimeoutException] is a
    transport error; [RecursionError] derives from [Exception] through
    [RuntimeError] and from none of the others. *)
Inductive Exn : Type :=
| PlainException (msg : string)
| ValueError (msg : string)
| JSONDecodeError (msg : string)
| HTTPStatusError (msg : string)
| TimeoutException (msg : string)
| TransportError (msg : string)
| RecursionError (msg : string).

Definition str (e : Exn) : string :=
  match e with
  | PlainException m | ValueError m | JSONDecodeError m
  | HTTPStatusError m | TimeoutException m | TransportError m
  | RecursionError m => m
  end.

(** [isinstance(e, json.JSONDecodeError)] *)
Definition is_JSONDecodeError (e : Exn) : bool :=
  match e with JSONDecodeError _ => true | _ => false end.

(** [isinstance(e, ValueError)] *)
Definition is_ValueError (e : Exn) : bool :=
  match e with ValueError _ | JSONDecodeError _ => true | _ => false end.

(** [isinstance(e, httpx.HTTPError)] *)
Definition is_HTTPError (e : Exn) : bool :=
  match e with
  | HTTPStatusError _ | TimeoutException _ | TransportError _ => true
  | _ => false
  end.

(** [isinstance(e, httpx.TimeoutException)] *)
Definition is_TimeoutException (e : Exn) : bool :=
  match e with TimeoutException _ => true | _ => false end.

(** ** HTTP traffic *)

Inductive Method : Type := GET | POST.

(** One call of [httpx.Client.get] or [httpx.Client.post]. *)
Record Request : Type := mkRequest {
  req_method : Method;
  req_url : string;
  req_headers : list (string * string);
  req_json : option Dict;
  req_timeout : Q
}.

(** The part of [httpx.Response] the module reads: the status line, the
    [Location] header, the body as bytes ([content], what [response.json()]
    decodes) and the body as text ([text], what the error messages quote). *)
Record Response : Type := mkResponse {
  status_code : Z;
  reason_phrase : string;
  location : option string;
  content : string;
  text : string
}.

(** What comes back from the wire: a response of any status, or a transport
    failure (a timeout, or any other [httpx.TransportError]). *)
Inductive NetOutcome : Type :=
| Responded (r : Response)
| TimedOut (msg : string)
| Unreachable (msg : string).

(** The result of [json.loads]: the decoded value, [JSONDecodeError] with
    its [str(e)], or any other exception the decoder raises (a plain
    [ValueError] for an integer beyond the digit limit, [RecursionError] for
    a text nested too deeply). *)
Inductive JsonResult : Type :=
| Decoded (v : Json)
| DecodeError (msg : string)
| DecodeRaised (e : Exn).

(** [json.loads] as an [except json.JSONDecodeError] clause sees it: what
    the clause catches is a decode error, whatever else is raised goes on. *)
Definition except_JSONDecodeError (r : JsonResult) : JsonResult :=
  match r with
  | DecodeRaised (JSONDecodeError m) => DecodeError m
  | other => other
  end.

(** The collaborators outside the module: [json.loads] on a [str] and on
    [bytes] (which it decodes first, byte order mark and all), and the
    remote API. *)
Record World : Type := mkWorld {
  json_loads : string -> JsonResult;
  json_loads_bytes : string -> JsonResult;
  upstream : Request -> NetOutcome
}.

(** ** The monad of tool code *)

Definition Trace : Type := list Request.

Inductive Outcome (A : Type) : Type :=
| Return (a : A)
| Raise (e : Exn).
Arguments Return {A} a.
Arguments Raise {A} e.

(** A computation reads the world, extends the trace of requests sent and
    either returns or raises. *)
Definition M (A : Type) : Type := World -> Trace -> Outcome A * Trace.

Definition ret {A} (a : A) : M A := fun _ t => (Return a, t).

Definition raise {A} (e : Exn) : M A := fun _ t => (Raise e, t).

Definition bind {A B} (c : M A) (k : A -> M B) : M B :=
  fun w t =>
    match c w t with
    | (Return a, t') => k a w t'
    | (Raise e, t') => (Raise e, t')
    end.

(** [try: body / except ...: handler]; the handler re-raises what no clause
    matches. *)
Definition try_except {A} (body : M A) (handler : Exn -> M A) : M A :=
  fun w t =>
    match body w t with
    | (Return a, t') => (Return a, t')
    | (Raise e, t') => handler e w t'
    end.

Declare Scope py_scope.
Delimit Scope py_scope with py.
Notation "x <- c ;; k" := (bind c (fun x => k))
  (at level 61, c at next level, right associativity) : py_scope.
Local Open Scope py_scope.

(** The [json] module as the running process sees it. *)
Definition the_json_loads : M (string -> JsonResult) :=
  fun w t => (Return (json_loads w), t).

(** Sending a request: it is logged, then the wire answers. *)
Definition send (rq : Request) : M Response :=
  fun w t =>
    match upstream w rq with
    | Responded r => (Return r, (t ++ [rq])%list)
    | TimedOut m => (Raise (TimeoutException m), (t ++ [rq])%list)
    | Unreachable m => (Raise (TransportError m), (t ++ [rq])%list)
    end.

(** A computation that ends as [o] does. *)
Definition returned {A} (o : Outcome A) : M A := fun _ t => (o, t).

(** [response.json()]: [json.loads] on the body bytes; the decoded value,
    or whatever the decoder raises. *)
Definition response_json (r : Response) : M Json :=
  fun w t =>
    match json_loads_bytes w (content r) with
    | Decoded v => (Return v, t)
    | DecodeError m => (Raise (JSONDecodeError m), t)
    | DecodeRaised e => (Raise e, t)
    end.

(** ** [httpx.Response.raise_for_status]

    The library's method, as [httpx] defines it: a 2xx response passes; any
    other raises [HTTPStatusError] whose message is built from the status
    line and the request URL. *)
Module httpx.

Definition is_success (r : Response) : bool :=
  (200 <=? status_code r) && (status_code r <=? 299).

Definition has_redirect_location (r : Response) : bool :=
  existsb (Z.eqb (status_code r)) [301; 302; 303; 307; 308]
  && match location r with Some _ => true | None => false end.

Definition error_type (status : Z) : string :=
  match status / 100 with
  | 1 => "Informational response"
  | 3 => "Redirect response"
  | 4 => "Client error"
  | 5 => "Server error"
  | _ => "Invalid status code"
  end.

Definition status_error_message (url : string) (r : Response) : string :=
  error_type (status_code r) ++ " '" ++ str_of_int (status_code r) ++ " "
  ++ reason_phrase r ++ "' for url '" ++ url ++ "'" ++ nl
  ++ (if has_redirect_location r
      then "Redirect location: '"
           ++ match location r with Some l => l | None => "" end ++ "'" ++ nl
      else "")
  ++ "For more information check: "
  ++ "https://developer.mozilla.org/en-US/docs/Web/HTTP/Status/"
  ++ str_of_int (status_code r).

Definition raise_for_status (url : string) (r : Response) : M Response :=
  if is_success r then ret r
  else raise (HTTPStatusError (status_error_message url r)).

End httpx.

(** ** [class ScapeGraphClient] *)
Module ScapeGraphClient.

Record t : Type := mk {
  api_key : string;
  headers : list (string * string);
  client_timeout : Q
}.

Definition BASE_URL : string := "https://api.scrapegraphai.com/v1".

(** [__init__] *)
Definition init (api_key : string) : t :=
  {| api_key := api_key;
     headers := [("SGAI-APIKEY", api_key); ("Content-Type", "application/json")];
     client_timeout := 120 # 1 |}.

(** [self.client.post(url, headers=self.headers, json=data)], with the
    per-request [timeout=] when one is given. *)
Definition post (self : t) (url : string) (data : Dict) (timeout : option Q)
  : M Response :=
  send {| req_method := POST;
          req_url := url;
          req_headers := headers self;
          req_json := Some data;
          req_timeout := match timeout with
                         | Some s => s
                         | None => client_timeout self
                         end |}.

(** [self.client.get(url, headers=self.headers)] *)
Definition get (self : t) (url : string) : M Response :=
  send {| req_method := GET;
          req_url := url;
          req_headers := headers self;
          req_json := None;
          req_timeout := client_timeout self |}.

(** The check five of the methods share:
    [if response.status_code != 200: raise Exception(f"Error ...")]. *)
Definition error_msg (response : Response) : string :=
  "Error " ++ str_of_int (status_code response) ++ ": " ++ text response.

Definition check_200 (response : Response) : M Json :=
  if negb (status_code response =? 200)
  then raise (PlainException (error_msg response))
  else response_json response.

Definition markdownify (self : t) (website_url : string) : M Json :=
  let url := BASE_URL ++ "/markdownify" in
  let data := [("website_url", JStr website_url)] in
  response <- post self url data None ;;
  check_200 response.

Definition smartscraper (self : t) (user_prompt : string)
    (website_url website_html website_markdown : option string)
    (output_schema : option Dict) (number_of_scrolls total_pages : option Z)
    (render_heavy_js stealth : option bool) : M Json :=
  let url := BASE_URL ++ "/smartscraper" in
  let data := [("user_prompt", JStr user_prompt)] in
  data <- match website_url, website_html, website_markdown with
          | Some u, _, _ => ret (dict_set "website_url" (JStr u) data)
          | None, Some h, _ => ret (dict_set "website_html" (JStr h) data)
          | None, None, Some m => ret (dict_set "website_markdown" (JStr m) data)
          | None, None, None =>
              raise (ValueError
                "Must provide one of: website_url, website_html, or website_markdown")
          end ;;
  let data := dict_set_opt "output_schema" (option_map JObj output_schema) data in
  let data := dict_set_opt "number_of_scrolls" (option_map JInt number_of_scrolls) data in
  let data := dict_set_opt "total_pages" (option_map JInt total_pages) data in
  let data := dict_set_opt "render_heavy_js" (option_map JBool render_heavy_js) data in
  let data := dict_set_opt "stealth" (option_map JBool stealth) data in
  response <- post self url data None ;;
  check_200 response.

Definition searchscraper (self : t) (user_prompt : string)
    (num_results number_of_scrolls : option Z) : M Json :=
  let url := BASE_URL ++ "/searchscraper" in
  let data := [("user_prompt", JStr user_prompt)] in
  let data := dict_set_opt "num_results" (option_map JInt num_results) data in
  let data := dict_set_opt "number_of_scrolls" (option_map JInt number_of_scrolls) data in
  response <- post self url data None ;;
  check_200 response.

Definition scrape (self : t) (website_url : string)
    (render_heavy_js : option bool) : M Json :=
  let url := BASE_URL ++ "/scrape" in
  let payload := [("website_url", JStr website_url)] in
  let payload := dict_set_opt "render_heavy_js" (option_map JBool render_heavy_js) payload in
  response <- post self url payload None ;;
  response <- httpx.raise_for_status url response ;;
  response_json response.

Definition sitemap (self : t) (website_url : string) : M Json :=
  let url := BASE_URL ++ "/sitemap" in
  let payload := [("website_url", JStr website_url)] in
  response <- post self url payload None ;;
  response <- httpx.raise_for_status url response ;;
  response_json response.

Definition agentic_scrapper (self : t) (url : string)
    (user_prompt : option string) (output_schema : option Dict)
    (steps : option (list Json)) (ai_extraction persistent_session : option bool)
    (timeout_seconds : option Q) : M Json :=
  let endpoint := BASE_URL ++ "/agentic-scrapper" in
  let payload := [("url", JStr url)] in
  let payload := dict_set_opt "user_prompt" (option_map JStr user_prompt) payload in
  let payload := dict_set_opt "output_schema" (option_map JObj output_schema) payload in
  let payload := dict_set_opt "steps" (option_map JArr steps) payload in
  let payload := dict_set_opt "ai_extraction" (option_map JBool ai_extraction) payload in
  let payload := dict_set_opt "persistent_session" (option_map JBool persistent_session) payload in
  response <- post self endpoint payload timeout_seconds ;;
  response <- httpx.raise_for_status endpoint response ;;
  response_json response.

Definition smartcrawler_initiate (self : t) (url : string)
    (prompt : option string) (extraction_mode : string)
    (depth max_pages : option Z) (same_domain_only : option bool) : M Json :=
  let endpoint := BASE_URL ++ "/crawl" in
  let data := [("url", JStr url)] in
  data <- (if String.eqb extraction_mode "markdown" then
             ret (dict_set "markdown_only" (JBool true) data)
           else if String.eqb extraction_mode "ai" then
             match prompt with
             | None => raise (ValueError "prompt is required when extraction_mode is 'ai'")
             | Some p => ret (dict_set "prompt" (JStr p) data)
             end
           else
             raise (ValueError ("Invalid extraction_mode: " ++ extraction_mode
                                ++ ". Must be 'ai' or 'markdown'"))) ;;
  let data := dict_set_opt "depth" (option_map JInt depth) data in
  let data := dict_set_opt "max_pages" (option_map JInt max_pages) data in
  let data := dict_set_opt "same_domain_only" (option_map JBool same_domain_only) data in
  response <- post self endpoint data None ;;
  check_200 response.

Definition smartcrawler_fetch_results (self : t) (request_id : string) : M Json :=
  let endpoint := BASE_URL ++ "/crawl/" ++ request_id in
  response <- get self endpoint ;;
  check_200 response.

End ScapeGraphClient.

(** ** [get_api_key] *)

(** What [get_http_headers()] gives at this call: the request's headers, or
    [LookupError] outside an HTTP request. *)
Inductive HeaderLookup : Type :=
| LookupError
| Headers (h : list (string * string)).

Record ConfigSchema : Type := mkConfig {
  scrapegraph_api_key : option string
}.

(** The call context: the ambient HTTP headers and [ctx.session_config]
    ([None] also when the attribute is missing). *)
Record Context : Type := mkContext {
  get_http_headers : HeaderLookup;
  session_config : option ConfigSchema
}.

(** [headers.get(name)] *)
Fixpoint headers_get (name : string) (h : list (string * string)) : option string :=
  match h with
  | [] => None
  | (n, v) :: h' => if String.eqb name n then Some v else headers_get name h'
  end.

(** [if api_key:] for an optional string: present and not empty. *)
Definition truthy (api_key : option string) : bool :=
  match api_key with
  | Some (String _ _) => true
  | _ => false
  end.

Definition header_api_key (ctx : Context) : option string :=
  match get_http_headers ctx with
  | Headers h => headers_get "x-api-key" h
  | LookupError => None
  end.

Definition session_api_key (ctx : Context) : option string :=
  match session_config ctx with
  | Some cfg => scrapegraph_api_key cfg
  | None => None
  end.

Definition missing_api_key_msg : string :=
  "ScapeGraph API key is required. Please provide it via:" ++ nl
  ++ "- HTTP header 'X-API-Key' (for remote server via mcp-remote)" ++ nl
  ++ "- MCP config 'scrapegraphApiKey' (for Smithery/local stdio)".

Definition get_api_key (ctx : Context) : M string :=
  match header_api_key ctx with
  | Some (String a k) => ret (String a k)
  | _ =>
      match session_api_key ctx with
      | Some (String a k) => ret (String a k)
      | _ => raise (ValueError missing_api_key_msg)
      end
  end.

(** ** The tools *)

(** The dictionary every [except] clause returns. *)
Definition error_envelope (msg : string) : Json :=
  JObj [("error", JStr msg)].

(** [output_schema: Union[str, Dict[str, Any]]] *)
Inductive SchemaArg : Type :=
| SchemaDict (d : Dict)
| SchemaStr (s : string).

(** [steps: Union[str, List[str]]] *)
Inductive StepsArg : Type :=
| StepsList (l : list string)
| StepsStr (s : string).

(** A normalisation block falls through with its value, leaves the tool
    with [return {"error": ...}], or lets an exception go that its [except]
    clause does not name. *)
Inductive Normalized (A : Type) : Type :=
| Proceed (a : A)
| EarlyReturn (v : Json)
| Escape (e : Exn).
Arguments Proceed {A} a.
Arguments EarlyReturn {A} v.
Arguments Escape {A} e.

(** The [output_schema] block, the same text in [smartscraper] and
    [agentic_scrapper]: a dict is taken as it is, a string is decoded and
    must give a dict, and a dict without ["required"] gets [[]] for it.  Its
    [except] clause names [json.JSONDecodeError] alone. *)
Definition normalize_output_schema (decode : string -> JsonResult)
    (output_schema : option SchemaArg) : Normalized (option Dict) :=
  let parsed :=
    match output_schema with
    | Some (SchemaDict d) => Proceed (Some d)
    | Some (SchemaStr s) =>
        match except_JSONDecodeError (decode s) with
        | Decoded (JObj parsed_schema) => Proceed (Some parsed_schema)
        | Decoded _ => EarlyReturn (error_envelope "output_schema must be a JSON object")
        | DecodeError m =>
            EarlyReturn (error_envelope ("Invalid JSON for output_schema: " ++ m))
        | DecodeRaised e => Escape e
        end
    | None => Proceed None
    end in
  match parsed with
  | Proceed (Some normalized_schema) =>
      if negb (dict_mem "required" normalized_schema)
      then Proceed (Some (dict_set "required" (JArr []) normalized_schema))
      else Proceed (Some normalized_schema)
  | other => other
  end.

(** The [steps] block of [agentic_scrapper]: a list is taken as it is; a
    string is decoded, a decoded list is used and anything else (a
    [JSONDecodeError] leaves [parsed_steps = None]) wraps the string.  Any
    other exception of the decoder is not caught and ends the block. *)
Definition normalize_steps (decode : string -> JsonResult)
    (steps : option StepsArg) : Outcome (option (list Json)) :=
  match steps with
  | Some (StepsList l) => Return (Some (map JStr l))
  | Some (StepsStr s) =>
      let parsed_steps :=
        match except_JSONDecodeError (decode s) with
        | Decoded v => Return v
        | DecodeError _ => Return JNull
        | DecodeRaised e => Raise e
        end in
      match parsed_steps with
      | Return (JArr l) => Return (Some l)
      | Return _ => Return (Some [JStr s])
      | Raise e => Raise e
      end
  | None => Return None
  end.

(** [except Exception as e: return {"error": str(e)}] *)
Definition except_Exception (e : Exn) : M Json :=
  ret (error_envelope (str e)).

(** [except httpx.HTTPError ... except ValueError ...] of [scrape] and
    [sitemap]. *)
Definition except_HTTPError_ValueError (e : Exn) : M Json :=
  if is_HTTPError e then ret (error_envelope (str e))
  else if is_ValueError e then ret (error_envelope (str e))
  else raise e.

(** The three clauses of [agentic_scrapper], the timeout first. *)
Definition except_Timeout_HTTPError_ValueError (e : Exn) : M Json :=
  if is_TimeoutException e
  then ret (error_envelope ("Request timed out: " ++ str e))
  else except_HTTPError_ValueError e.

Definition markdownify (website_url : string) (ctx : Context) : M Json :=
  try_except
    (api_key <- get_api_key ctx ;;
     let client := ScapeGraphClient.init api_key in
     ScapeGraphClient.markdownify client website_url)
    except_Exception.

Definition smartscraper (user_prompt : string) (ctx : Context)
    (website_url website_html website_markdown : option string)
    (output_schema : option SchemaArg)
    (number_of_scrolls total_pages : option Z)
    (render_heavy_js stealth : option bool) : M Json :=
  try_except
    (api_key <- get_api_key ctx ;;
     let client := ScapeGraphClient.init api_key in
     decode <- the_json_loads ;;
     match normalize_output_schema decode output_schema with
     | Escape e => raise e
     | EarlyReturn v => ret v
     | Proceed normalized_schema =>
         ScapeGraphClient.smartscraper client user_prompt
           website_url website_html website_markdown normalized_schema
           number_of_scrolls total_pages render_heavy_js stealth
     end)
    except_Exception.

Definition searchscraper (user_prompt : string) (ctx : Context)
    (num_results number_of_scrolls : option Z) : M Json :=
  try_except
    (api_key <- get_api_key ctx ;;
     let client := ScapeGraphClient.init api_key in
     ScapeGraphClient.searchscraper client user_prompt num_results number_of_scrolls)
    except_Exception.

Definition smartcrawler_initiate (url : string) (ctx : Context)
    (prompt : option string) (extraction_mode : string)
    (depth max_pages : option Z) (same_domain_only : option bool) : M Json :=
  try_except
    (api_key <- get_api_key ctx ;;
     let client := ScapeGraphClient.init api_key in
     ScapeGraphClient.smartcrawler_initiate client url prompt extraction_mode
       depth max_pages same_domain_only)
    except_Exception.

Definition smartcrawler_fetch_results (request_id : string) (ctx : Context)
  : M Json :=
  try_except
    (api_key <- get_api_key ctx ;;
     let client := ScapeGraphClient.init api_key in
     ScapeGraphClient.smartcrawler_fetch_results client request_id)
    except_Exception.

Definition scrape (website_url : string) (ctx : Context)
    (render_heavy_js : option bool) : M Json :=
  try_except
    (api_key <- get_api_key ctx ;;
     let client := ScapeGraphClient.init api_key in
     ScapeGraphClient.scrape client website_url render_heavy_js)
    except_HTTPError_ValueError.

Definition sitemap (website_url : string) (ctx : Context) : M Json :=
  try_except
    (api_key <- get_api_key ctx ;;
     let client := ScapeGraphClient.init api_key in
     ScapeGraphClient.sitemap client website_url)
    except_HTTPError_ValueError.

Definition agentic_scrapper (url : string) (ctx : Context)
    (user_prompt : option string) (output_schema : option SchemaArg)
    (steps : option StepsArg) (ai_extraction persistent_session : option bool)
    (timeout_seconds : option Q) : M Json :=
  decode <- the_json_loads ;;
  normalized_steps <- returned (normalize_steps decode steps) ;;
  match normalize_output_schema decode output_schema with
  | Escape e => raise e
  | EarlyReturn v => ret v
  | Proceed normalized_schema =>
      try_except
        (api_key <- get_api_key ctx ;;
         let client := ScapeGraphClient.init api_key in
         ScapeGraphClient.agentic_scrapper client url user_prompt
           normalized_schema normalized_steps ai_extraction persistent_session
           timeout_seconds)
        except_Timeout_HTTPError_ValueError
  end.

(** ** The tool surface

    One constructor per registered tool, carrying the arguments of a call;
    [call_tool] is the dispatch of the MCP server. *)
Inductive ToolCall : Type :=
| Markdownify (website_url : string)
| Smartscraper (user_prompt : string)
    (website_url website_html website_markdown : option string)
    (output_schema : option SchemaArg)
    (number_of_scrolls total_pages : option Z)
    (render_heavy_js stealth : option bool)
| Searchscraper (user_prompt : string) (num_results number_of_scrolls : option Z)
| SmartcrawlerInitiate (url : string) (prompt : option string)
    (extraction_mode : string) (depth max_pages : option Z)
    (same_domain_only : option bool)
| SmartcrawlerFetchResults (request_id : string)
| Scrape (website_url : string) (render_heavy_js : option bool)
| Sitemap (website_url : string)
| AgenticScrapper (url : string) (user_prompt : option string)
    (output_schema : option SchemaArg) (steps : option StepsArg)
    (ai_extraction persistent_session : option bool)
    (timeout_seconds : option Q).

Definition call_tool (c : ToolCall) (ctx : Context) : M Json :=
  match c with
  | Markdownify u => markdownify u ctx
  | Smartscraper p u h m s n tp r st => smartscraper p ctx u h m s n tp r st
  | Searchscraper p n s => searchscraper p ctx n s
  | SmartcrawlerInitiate u p m d mp sd => smartcrawler_initiate u ctx p m d mp sd
  | SmartcrawlerFetchResults id => smartcrawler_fetch_results id ctx
  | Scrape u r => scrape u ctx r
  | Sitemap u => sitemap u ctx
  | AgenticScrapper u p s st ai ps t => agentic_scrapper u ctx p s st ai ps t
  end.

(** A tool invocation from a fresh process state: nothing sent yet. *)
Definition run {A} (c : M A) (w : World) : Outcome A * Trace := c w [].

(** ** A reference decoder

    A JSON decoder to run the tools on concrete texts: the grammar
    [json.loads] accepts (RFC 8259 and the three literals [NaN], [Infinity]
    and [-Infinity]), strings as UTF-8 bytes, a repeated key keeping its
    first place and its last value, and the [ValueError] of an integer
    literal of more than 4300 digits, raised where the literal stands.  Its
    diagnostic for a syntax error is the one of a text whose first character
    starts no value.  It serves texts in UTF-8 nested less deeply than the
    interpreter's recursion limit. *)
Module RefJson.

Local Open Scope char_scope.

Definition is_ws (c : ascii) : bool :=
  match c with
  | " " | "009" | "010" | "013" => true
  | _ => false
  end.

Fixpoint skip_ws (s : string) : string :=
  match s with
  | String c r => if is_ws c then skip_ws r else s
  | EmptyString => s
  end.

Definition digit_val (c : ascii) : option Z :=
  match c with
  | "0" => Some 0%Z | "1" => Some 1%Z | "2" => Some 2%Z | "3" => Some 3%Z
  | "4" => Some 4%Z | "5" => Some 5%Z | "6" => Some 6%Z | "7" => Some 7%Z
  | "8" => Some 8%Z | "9" => Some 9%Z
  | _ => None
  end.

Definition hex_val (c : ascii) : option Z :=
  match c with
  | "a" | "A" => Some 10%Z | "b" | "B" => Some 11%Z | "c" | "C" => Some 12%Z
  | "d" | "D" => Some 13%Z | "e" | "E" => Some 14%Z | "f" | "F" => Some 15%Z
  | _ => digit_val c
  end.

(** The longest run of digits at the head of [s], with what follows. *)
Fixpoint digits (s : string) : string * string :=
  match s with
  | String c r =>
      match digit_val c with
      | Some _ => let (d, r') := digits r in (String c d, r')
      | None => (EmptyString, s)
      end
  | EmptyString => (EmptyString, s)
  end.

Fixpoint Z_of_digits (acc : Z) (d : string) : Z :=
  match d with
  | String c r =>
      Z_of_digits (10 * acc + match digit_val c with Some v => v | None => 0 end)%Z r
  | EmptyString => acc
  end.

(** What a parser makes of the head of a text: a value and the rest, a
    syntax error, or an exception that is no [JSONDecodeError]. *)
Inductive Parsed : Type :=
| Value (v : Json) (rest : string)
| Syntax
| Raised (e : Exn).

(** [int(s)] refuses a literal of more than 4300 digits. *)
Definition max_str_digits : nat := 4300.

Definition digit_limit_msg (n : nat) : string :=
  ("Exceeds the limit (4300 digits) for integer string conversion: value has "
   ++ str_of_int (Z.of_nat n)
   ++ " digits; use sys.set_int_max_str_digits() to increase the limit")%string.

(** A number whose optional minus sign is already consumed. *)
Definition parse_number (neg : bool) (s : string) : Parsed :=
  let (int_part, r) := digits s in
  match int_part with
  | EmptyString => Syntax
  | String "0" (String _ _) => Syntax
  | _ =>
      let (frac, r1) :=
        match r with
        | String "." r' =>
            match digits r' with
            | (EmptyString, _) => (EmptyString, r)
            | (d, r'') => (("." ++ d)%string, r'')
            end
        | _ => (EmptyString, r)
        end in
      let (exp, r2) :=
        match r1 with
        | String e r' =>
            if Ascii.eqb e "e" || Ascii.eqb e "E" then
              let (sign, r'') :=
                match r' with
                | String "+" q => ("+"%string, q)
                | String "-" q => ("-"%string, q)
                | _ => (EmptyString, r')
                end in
              match digits r'' with
              | (EmptyString, _) => (EmptyString, r1)
              | (d, q) => ((String e sign ++ d)%string, q)
              end
            else (EmptyString, r1)
        | _ => (EmptyString, r1)
        end in
      let sgn := if neg then "-"%string else EmptyString in
      match frac, exp with
      | EmptyString, EmptyString =>
          if Nat.ltb max_str_digits (String.length int_part)
          then Raised (ValueError (digit_limit_msg (String.length int_part)))
          else Value (JInt (if neg then - Z_of_digits 0 int_part
                            else Z_of_digits 0 int_part)%Z) r2
      | _, _ => Value (JFloat (sgn ++ int_part ++ frac ++ exp)%string) r2
      end
  end.

Definition byte (n : Z) : ascii := ascii_of_N (Z.to_N n).

(** The UTF-8 bytes of a code point. *)
Definition utf8 (cp : Z) : string :=
  (if cp <? 128 then String (byte cp) EmptyString
   else if cp <? 2048 then
     String (byte (192 + cp / 64)) (String (byte (128 + cp mod 64)) EmptyString)
   else if cp <? 65536 then
     String (byte (224 + cp / 4096))
       (String (byte (128 + (cp / 64) mod 64))
          (String (byte (128 + cp mod 64)) EmptyString))
   else
     String (byte (240 + cp / 262144))
       (String (byte (128 + (cp / 4096) mod 64))
          (String (byte (128 + (cp / 64) mod 64))
             (String (byte (128 + cp mod 64)) EmptyString))))%Z.

(** Four hexadecimal digits. *)
Definition hex4 (s : string) : option (Z * string) :=
  match s with
  | String a (String b (String c (String d r))) =>
      match hex_val a, hex_val b, hex_val c, hex_val d with
      | Some x, Some y, Some z, Some u => Some (((x * 16 + y) * 16 + z) * 16 + u, r)%Z
      | _, _, _, _ => None
      end
  | _ => None
  end.

(** The body of a string literal, after its opening quote. *)
Fixpoint parse_chars (n : nat) (s : string) : option (string * string) :=
  match n with
  | O => None
  | S n' =>
      match s with
      | EmptyString => None
      | String "034" r => Some (EmptyString, r)
      | String "\" (String e r) =>
          let plain (c : ascii) :=
            match parse_chars n' r with
            | Some (body, q) => Some (String c body, q)
            | None => None
            end in
          match e with
          | "034" => plain "034"
          | "\" => plain "\"
          | "/" => plain "/"
          | "b" => plain "008"
          | "f" => plain "012"
          | "n" => plain "010"
          | "r" => plain "013"
          | "t" => plain "009"
          | "u" =>
              match hex4 r with
              | Some (hi, q) =>
                  let pair :=
                    if ((55296 <=? hi) && (hi <=? 56319))%Z then
                      match q with
                      | String "\" (String "u" q') =>
                          match hex4 q' with
                          | Some (lo, q'') =>
                              if ((56320 <=? lo) && (lo <=? 57343))%Z
                              then Some (65536 + (hi - 55296) * 1024 + (lo - 56320), q'')%Z
                              else None
                          | None => None
                          end
                      | _ => None
                      end
                    else None in
                  let (cp, rest) := match pair with Some p => p | None => (hi, q) end in
                  match parse_chars n' rest with
                  | Some (body, q') => Some ((utf8 cp ++ body)%string, q')
                  | None => None
                  end
              | None => None
              end
          | _ => None
          end
      | String c r =>
          if (N_of_ascii c <? 32)%N then None
          else match parse_chars n' r with
               | Some (body, q) => Some (String c body, q)
               | None => None
               end
      end
  end.

Definition parse_string (s : string) : option (string * string) :=
  parse_chars (S (String.length s)) s.

Fixpoint parse_value (n : nat) (s : string) {struct n} : Parsed :=
  match n with
  | O => Syntax
  | S n' =>
      match s with
      | String "{" r =>
          match skip_ws r with
          | String "}" q => Value (JObj []) q
          | q => parse_members n' q []
          end
      | String "[" r =>
          match skip_ws r with
          | String "]" q => Value (JArr []) q
          | q => parse_items n' q []
          end
      | String "034" r =>
          match parse_string r with
          | Some (v, q) => Value (JStr v) q
          | None => Syntax
          end
      | String "-" r =>
          if startswith "Infinity" r
          then Value (JFloat "-Infinity") (String.substring 8 (String.length r - 8) r)
          else parse_number true r
      | _ =>
          if startswith "null" s then Value JNull (String.substring 4 (String.length s - 4) s)
          else if startswith "true" s
          then Value (JBool true) (String.substring 4 (String.length s - 4) s)
          else if startswith "false" s
          then Value (JBool false) (String.substring 5 (String.length s - 5) s)
          else if startswith "NaN" s
          then Value (JFloat "NaN") (String.substring 3 (String.length s - 3) s)
          else if startswith "Infinity" s
          then Value (JFloat "Infinity") (String.substring 8 (String.length s - 8) s)
          else parse_number false s
      end
  end

with parse_items (n : nat) (s : string) (acc : list Json) {struct n} : Parsed :=
  match n with
  | O => Syntax
  | S n' =>
      match parse_value n' s with
      | Value v r =>
          match skip_ws r with
          | String "]" q => Value (JArr (rev (v :: acc))) q
          | String "," q => parse_items n' (skip_ws q) (v :: acc)
          | _ => Syntax
          end
      | Syntax => Syntax
      | Raised e => Raised e
      end
  end

with parse_members (n : nat) (s : string) (acc : Dict) {struct n} : Parsed :=
  match n with
  | O => Syntax
  | S n' =>
      match s with
      | String "034" r =>
          match parse_string r with
          | Some (k, q) =>
              match skip_ws q with
              | String ":" q' =>
                  match parse_value n' (skip_ws q') with
                  | Value v q'' =>
                      match skip_ws q'' with
                      | String "}" rest => Value (JObj (dict_set k v acc)) rest
                      | String "," rest =>
                          parse_members n' (skip_ws rest) (dict_set k v acc)
                      | _ => Syntax
                      end
                  | Syntax => Syntax
                  | Raised e => Raised e
                  end
              | _ => Syntax
              end
          | None => Syntax
          end
      | _ => Syntax
      end
  end.

Definition expecting_value : string :=
  "Expecting value: line 1 column 1 (char 0)".

(** [json.loads] on a [str]. *)
Definition loads (s : string) : JsonResult :=
  match parse_value (2 * String.length s + 2) (skip_ws s) with
  | Value v r =>
      match skip_ws r with
      | EmptyString => Decoded v
      | _ => DecodeError expecting_value
      end
  | Syntax => DecodeError expecting_value
  | Raised e => DecodeRaised e
  end.

(** [json.loads] on [bytes] in UTF-8: a byte order mark is dropped, the
    rest is the text. *)
Definition loads_bytes (b : string) : JsonResult :=
  match b with
  | String "239" (String "187" (String "191" s)) => loads s
  | _ => loads b
  end.

End RefJson.

(** ** The vocabulary of the statements

    Predicates on contexts, runs and payloads, the messages the code builds,
    and a few concrete contexts, worlds and texts to run the tools on. *)

(** Neither source yields a non-empty credential. *)
Definition no_credential (ctx : Context) : Prop :=
  truthy (header_api_key ctx) = false /\ truthy (session_api_key ctx) = false.

(** The key [get_api_key] settles on: the header first, then the session. *)
Definition resolved_key (ctx : Context) : option string :=
  if truthy (header_api_key ctx) then header_api_key ctx
  else if truthy (session_api_key ctx) then session_api_key ctx
  else None.

(** A call whose [X-API-Key] header carries a key. *)
Definition ctx_with_key : Context :=
  {| get_http_headers := Headers [("x-api-key", "sgai-test")];
     session_config := None |}.

(** A call outside HTTP whose session configuration has no key. *)
Definition ctx_without_key : Context :=
  {| get_http_headers := LookupError;
     session_config := Some {| scrapegraph_api_key := None |} |}.

(** The world whose decoder is the reference one and whose remote end
    answers every request with [r]. *)
Definition world_answering (r : Response) : World :=
  {| json_loads := RefJson.loads;
     json_loads_bytes := RefJson.loads_bytes;
     upstream := fun _ => Responded r |}.

(** HTTP 500 with the body [server exploded]. *)
Definition server_exploded : Response :=
  {| status_code := 500;
     reason_phrase := "Internal Server Error";
     location := None;
     content := "server exploded";
     text := "server exploded" |}.

(** HTTP 200 with the body [{}]. *)
Definition ok_empty_object : Response :=
  {| status_code := 200; reason_phrase := "OK"; location := None;
     content := "{}"; text := "{}" |}.

(** The request a client built from [ctx_with_key] posts. *)
Definition posted (path : string) (payload : Dict) : Request :=
  {| req_method := POST;
     req_url := ScapeGraphClient.BASE_URL ++ path;
     req_headers := [("SGAI-APIKEY", "sgai-test");
                     ("Content-Type", "application/json")];
     req_json := Some payload;
     req_timeout := 120 # 1 |}.

(** How [agentic_scrapper] can be over before it looks for a key: its
    [steps] block lets an exception go, or its [output_schema] block returns
    its error or lets an exception go.  No other tool ends that early. *)
Definition left_before_key (w : World) (c : ToolCall) : option (Outcome Json) :=
  match c with
  | AgenticScrapper _ _ output_schema steps _ _ _ =>
      match normalize_steps (json_loads w) steps with
      | Raise e => Some (Raise e)
      | Return _ =>
          match normalize_output_schema (json_loads w) output_schema with
          | EarlyReturn v => Some (Return v)
          | Escape e => Some (Raise e)
          | Proceed _ => None
          end
      end
  | _ => None
  end.




(** The two error texts stay folded while a run is simplified. *)
Arguments ScapeGraphClient.error_msg : simpl never.
Arguments httpx.status_error_message : simpl never.

(** The five tools whose client method tests [status_code != 200] itself;
    the other three leave the status to [raise_for_status]. *)
Definition tests_status_itself (c : ToolCall) : bool :=
  match c with
  | Scrape _ _ | Sitemap _ | AgenticScrapper _ _ _ _ _ _ _ => false
  | _ => true
  end.

(** The content-source keys a payload carries. *)
Definition content_source_keys (payload : Dict) : list string :=
  filter (fun k => dict_mem k payload)
    ["website_url"; "website_html"; "website_markdown"].

(** The [ValueError] of [ScapeGraphClient.smartscraper]. *)
Definition must_provide_one : string :=
  "Must provide one of: website_url, website_html, or website_markdown".

(** What [smartscraper] sends for a given content source: one request
    whose payload has [key], and only [key], among the three. *)
Definition sends_only (key content : string) (res : Outcome Json * Trace) : Prop :=
  exists rq payload,
    snd res = [rq]
    /\ req_json rq = Some payload
    /\ content_source_keys payload = [key]
    /\ dict_get key payload = Some (JStr content).

(** The JSON text [{"type":"object"}]. *)
Definition type_object_text : string :=
  "{" ++ quoted "type" ++ ":" ++ quoted "object" ++ "}".

(** The two [ValueError]s of [ScapeGraphClient.smartcrawler_initiate]. *)
Definition prompt_required : string :=
  "prompt is required when extraction_mode is 'ai'".

Definition invalid_extraction_mode (mode : string) : string :=
  "Invalid extraction_mode: " ++ mode ++ ". Must be 'ai' or 'markdown'".


(** The payload of the request a run sent, when it sent exactly one. *)
Definition sent_payload (res : Outcome Json * Trace) : option Dict :=
  match snd res with
  | [rq] => req_json rq
  | _ => None
  end.

(** The headers [ScapeGraphClient.__init__] sets for a key. *)
Definition client_headers (key : string) : list (string * string) :=
  [("SGAI-APIKEY", key); ("Content-Type", "application/json")].

(** The path below [BASE_URL] each tool's client method addresses. *)
Definition endpoint_path (c : ToolCall) : string :=
  match c with
  | Markdownify _ => "/markdownify"
  | Smartscraper _ _ _ _ _ _ _ _ _ => "/smartscraper"
  | Searchscraper _ _ _ => "/searchscraper"
  | SmartcrawlerInitiate _ _ _ _ _ _ => "/crawl"
  | SmartcrawlerFetchResults request_id => "/crawl/" ++ request_id
  | Scrape _ _ => "/scrape"
  | Sitemap _ => "/sitemap"
  | AgenticScrapper _ _ _ _ _ _ _ => "/agentic-scrapper"
  end.

(** The one tool that reads instead of posting. *)
Definition is_fetch (c : ToolCall) : bool :=
  match c with SmartcrawlerFetchResults _ => true | _ => false end.

(** The one tool with a clause of its own for timeouts. *)
Definition is_agentic (c : ToolCall) : bool :=
  match c with AgenticScrapper _ _ _ _ _ _ _ => true | _ => false end.

(** HTTP 201 with the body [{}]. *)
Definition created_empty_object : Response :=
  {| status_code := 201; reason_phrase := "Created"; location := None;
     content := "{}"; text := "{}" |}.

(** HTTP 200 with a body that is no JSON text. *)
Definition ok_not_json : Response :=
  {| status_code := 200; reason_phrase := "OK"; location := None;
     content := "<html>"; text := "<html>" |}.

(** The world whose remote end never answers in time. *)
Definition world_timing_out (msg : string) : World :=
  {| json_loads := RefJson.loads;
     json_loads_bytes := RefJson.loads_bytes;
     upstream := fun _ => TimedOut msg |}.

(** A call whose header is present but empty and whose session
    configuration carries a key. *)
Definition ctx_empty_header_session_key : Context :=
  {| get_http_headers := Headers [("x-api-key", "")];
     session_config := Some {| scrapegraph_api_key := Some "sgai-session" |} |}.

(** A call with a key in both places. *)
Definition ctx_both_keys : Context :=
  {| get_http_headers := Headers [("x-api-key", "sgai-header")];
     session_config := Some {| scrapegraph_api_key := Some "sgai-session" |} |}.

(** The [POST] a client holding [key] sends to [path]. *)
Definition post_request (key path : string) (payload : Dict) (timeout : Q)
  : Request :=
  {| req_method := POST;
     req_url := ScapeGraphClient.BASE_URL ++ path;
     req_headers := client_headers key;
     req_json := Some payload;
     req_timeout := timeout |}.

(** * Properties *)

(** ** Strings and dictionaries *)

Lemma startswith_spec (s t : string) :
  startswith s t = true <-> exists post, t = s ++ post.
Proof.
  revert t. induction s as [|a s IH]; intros t; simpl.
  - split; [intros _; exists t; reflexivity | reflexivity].
  - destruct t as [|b t].
    + split; [discriminate | intros [post H]; discriminate].
    + rewrite andb_true_iff, Ascii.eqb_eq, IH. split.
      * intros [-> [post ->]]. exists post. reflexivity.
      * intros [post H]. injection H as -> ->. split; [reflexivity | eauto].
Qed.

Lemma infixb_spec (s t : string) : infixb s t = true <-> contains t s.
Proof.
  unfold contains. induction t as [|b t IH].
  - simpl. rewrite orb_false_r, startswith_spec. split.
    + intros [post H]. exists EmptyString, post. exact H.
    + intros [[|c pre] [post H]]; [eauto | discriminate].
  - cbn [infixb]. rewrite orb_true_iff, startswith_spec, IH. split.
    + intros [[post H] | [pre [post H]]].
      * exists EmptyString, post. exact H.
      * exists (String b pre), post. simpl. rewrite H. reflexivity.
    + intros [[|c pre] [post H]].
      * left. exists post. exact H.
      * right. simpl in H. injection H as -> ->. eauto.
Qed.

Lemma not_contains (s t : string) : infixb s t = false -> ~ contains t s.
Proof.
  intros H C. apply infixb_spec in C. rewrite C in H. discriminate.
Qed.

Lemma append_assoc (a b c : string) : (a ++ b) ++ c = a ++ (b ++ c).
Proof. induction a as [|x a IH]; simpl; [reflexivity | rewrite IH; reflexivity]. Qed.

Lemma contains_refl (s : string) : contains s s.
Proof.
  exists EmptyString, EmptyString. simpl.
  induction s as [|a s IH]; simpl; [reflexivity | rewrite <- IH; reflexivity].
Qed.

Lemma contains_app_l (a b s : string) : contains a s -> contains (a ++ b) s.
Proof.
  intros [pre [post ->]]. exists pre, (post ++ b).
  rewrite !append_assoc. reflexivity.
Qed.

Lemma contains_app_r (a b s : string) : contains b s -> contains (a ++ b) s.
Proof.
  intros [pre [post ->]]. exists (a ++ pre), post.
  rewrite !append_assoc. reflexivity.
Qed.

Create HintDb strings.
#[local] Hint Resolve contains_refl contains_app_l contains_app_r : strings.

Lemma dict_get_set_same (k : string) (v : Json) (d : Dict) :
  dict_get k (dict_set k v d) = Some v.
Proof.
  induction d as [|[k' v'] d IH]; simpl.
  - rewrite String.eqb_refl. reflexivity.
  - destruct (String.eqb k k') eqn:E; simpl; rewrite E; [reflexivity | exact IH].
Qed.

Lemma dict_get_set_other (k k' : string) (v : Json) (d : Dict) :
  String.eqb k k' = false -> dict_get k (dict_set k' v d) = dict_get k d.
Proof.
  intros N. induction d as [|[k0 v0] d IH]; simpl.
  - rewrite N. reflexivity.
  - destruct (String.eqb k' k0) eqn:E; simpl.
    + apply String.eqb_eq in E. subst k0. rewrite N. reflexivity.
    + rewrite IH. reflexivity.
Qed.

Lemma dict_get_set_opt_other (k k' : string) (x : option Json) (d : Dict) :
  String.eqb k k' = false -> dict_get k (dict_set_opt k' x d) = dict_get k d.
Proof.
  intros N. destruct x; simpl; [apply dict_get_set_other; exact N | reflexivity].
Qed.

Lemma dict_mem_set (k : string) (v : Json) (d : Dict) :
  dict_mem k (dict_set k v d) = true.
Proof. unfold dict_mem. rewrite dict_get_set_same. reflexivity. Qed.

(** ** Credentials *)

Lemma get_api_key_run (ctx : Context) (w : World) (t : Trace) :
  get_api_key ctx w t =
  match resolved_key ctx with
  | Some k => (Return k, t)
  | None => (Raise (ValueError missing_api_key_msg), t)
  end.
Proof.
  unfold get_api_key, resolved_key.
  destruct (header_api_key ctx) as [[|a k]|]; simpl;
    destruct (session_api_key ctx) as [[|b k']|]; reflexivity.
Qed.

Lemma no_credential_resolved (ctx : Context) :
  no_credential ctx <-> resolved_key ctx = None.
Proof.
  unfold no_credential, resolved_key.
  destruct (header_api_key ctx) as [[|a k]|]; simpl;
    destruct (session_api_key ctx) as [[|b k']|]; simpl;
    intuition discriminate.
Qed.

Lemma missing_api_key_msg_names_both :
  contains missing_api_key_msg "X-API-Key"
  /\ contains missing_api_key_msg "scrapegraphApiKey".
Proof. split; apply infixb_spec; vm_compute; reflexivity. Qed.

(** ** Running a tool *)

(** The names a tool run unfolds to. *)
Ltac unfold_tools :=
  unfold run, call_tool, markdownify, smartscraper, searchscraper,
    smartcrawler_initiate, smartcrawler_fetch_results, scrape, sitemap,
    agentic_scrapper, ScapeGraphClient.markdownify,
    ScapeGraphClient.smartscraper, ScapeGraphClient.searchscraper,
    ScapeGraphClient.smartcrawler_initiate,
    ScapeGraphClient.smartcrawler_fetch_results, ScapeGraphClient.scrape,
    ScapeGraphClient.sitemap, ScapeGraphClient.agentic_scrapper,
    ScapeGraphClient.check_200, ScapeGraphClient.post, ScapeGraphClient.get,
    httpx.raise_for_status, response_json, the_json_loads, returned, send,
    except_Exception, except_Timeout_HTTPError_ValueError,
    except_HTTPError_ValueError, try_except, bind, ret, raise in *.

(** Case analysis on the next thing a run branches on. *)
Ltac branch :=
  match goal with
  | |- context [match ?x with _ => _ end] =>
      lazymatch x with
      | context [match _ with _ => _ end] => fail
      | context [get_api_key] => fail
      | _ => destruct x eqn:?
      end
  end.

(** A run taken apart down to its leaves. *)
Ltac run_tool :=
  unfold_tools; rewrite ?get_api_key_run; cbn;
  repeat (branch; rewrite ?get_api_key_run; cbn).

(** C1, at an input the claim rejects: [example.com] has no protocol, and
    each of the seven URL-taking tools posts it upstream as it stands,
    whatever the world. *)
Theorem url_without_protocol_is_posted (w : World) :
  let u := "example.com" in
  snd (run (markdownify u ctx_with_key) w)
    = [posted "/markdownify" [("website_url", JStr u)]]
  /\ snd (run (smartscraper "p" ctx_with_key (Some u) None None None None None None None) w)
    = [posted "/smartscraper" [("user_prompt", JStr "p"); ("website_url", JStr u)]]
  /\ snd (run (smartcrawler_initiate u ctx_with_key None "markdown" None None None) w)
    = [posted "/crawl" [("url", JStr u); ("markdown_only", JBool true)]]
  /\ snd (run (scrape u ctx_with_key None) w)
    = [posted "/scrape" [("website_url", JStr u)]]
  /\ snd (run (sitemap u ctx_with_key) w)
    = [posted "/sitemap" [("website_url", JStr u)]]
  /\ snd (run (agentic_scrapper u ctx_with_key None None None None None None) w)
    = [posted "/agentic-scrapper" [("url", JStr u)]].
Proof.
  cbv zeta. repeat split; run_tool; reflexivity.
Qed.

(** C2, at the inputs the claim rejects: [number_of_scrolls=51],
    [total_pages=0] and [total_pages=101] pass through [smartscraper]
    unchecked and reach the wire in the payload, whatever the world. *)
Theorem out_of_range_values_are_posted (w : World) :
  let u := "https://example.com" in
  let base := [("user_prompt", JStr "p"); ("website_url", JStr u)] in
  snd (run (smartscraper "p" ctx_with_key (Some u) None None None
              (Some 51) None None None) w)
    = [posted "/smartscraper" (base ++ [("number_of_scrolls", JInt 51)])%list]
  /\ snd (run (smartscraper "p" ctx_with_key (Some u) None None None
                 None (Some 0) None None) w)
    = [posted "/smartscraper" (base ++ [("total_pages", JInt 0)])%list]
  /\ snd (run (smartscraper "p" ctx_with_key (Some u) None None None
                 None (Some 101) None None) w)
    = [posted "/smartscraper" (base ++ [("total_pages", JInt 101)])%list].
Proof.
  cbv zeta. repeat split; run_tool; reflexivity.
Qed.

(** ** Credential resolution (C3) *)

(** An early return of the [output_schema] block is an error envelope that
    names the parameter. *)
Lemma early_return_is_envelope (decode : string -> JsonResult)
    (output_schema : option SchemaArg) (v : Json) :
  normalize_output_schema decode output_schema = EarlyReturn v ->
  exists msg, v = error_envelope msg /\ contains msg "output_schema".
Proof.
  unfold normalize_output_schema.
  destruct output_schema as [[d|s]|]; cbn.
  - destruct (dict_mem "required" d); discriminate.
  - destruct (decode s) as [[]|m|[]]; cbn;
      try (destruct (dict_mem "required" _); discriminate);
      try discriminate;
      intros E; injection E as <-; eexists; (split; [reflexivity |]).
    all: apply infixb_spec; vm_compute; reflexivity.
  - discriminate.
Qed.

(** What the [output_schema] block lets go is what the decoder raised on
    the schema text, and no [JSONDecodeError]. *)
Lemma escape_is_raised (decode : string -> JsonResult)
    (output_schema : option SchemaArg) (e : Exn) :
  normalize_output_schema decode output_schema = Escape e ->
  is_JSONDecodeError e = false
  /\ exists s, output_schema = Some (SchemaStr s) /\ decode s = DecodeRaised e.
Proof.
  unfold normalize_output_schema.
  destruct output_schema as [[d|s]|]; cbn.
  - destruct (dict_mem "required" d); discriminate.
  - destruct (decode s) as [[]|m|[]] eqn:D; cbn;
      try (destruct (dict_mem "required" _); discriminate);
      try discriminate;
      intros E; injection E as <-; (split; [reflexivity |]);
      exists s; (split; [reflexivity | exact D]).
  - discriminate.
Qed.

(** The same for the [steps] block. *)
Lemma steps_raise_is_raised (decode : string -> JsonResult)
    (steps : option StepsArg) (e : Exn) :
  normalize_steps decode steps = Raise e ->
  is_JSONDecodeError e = false
  /\ exists s, steps = Some (StepsStr s) /\ decode s = DecodeRaised e.
Proof.
  unfold normalize_steps.
  destruct steps as [[l|s]|]; cbn; try discriminate.
  destruct (decode s) as [[]|m|[]] eqn:D; cbn; try discriminate;
    intros E; injection E as <-; (split; [reflexivity |]);
    exists s; (split; [reflexivity | exact D]).
Qed.

(** C3 as stated fails: [agentic_scrapper] normalises its arguments before
    it resolves the key, so without a credential a schema text that is not a
    JSON object is answered with the schema error. *)
Lemma credential_not_first_in_agentic_scrapper :
  no_credential ctx_without_key
  /\ run (call_tool (AgenticScrapper "https://example.com" None
                       (Some (SchemaStr "[]")) None None None None)
            ctx_without_key)
         (world_answering ok_empty_object)
     = (Return (error_envelope "output_schema must be a JSON object"), [])
  /\ error_envelope "output_schema must be a JSON object"
     <> error_envelope missing_api_key_msg.
Proof.
  split; [split; reflexivity |]. split; [vm_compute; reflexivity |].
  unfold error_envelope. intros H. vm_compute in H. discriminate H.
Qed.

(** C3, amended: without a credential no tool sends anything.  Seven tools
    resolve the key first and return the credential error, whose text names
    both configuration paths.  [agentic_scrapper] runs its two normalisation
    blocks first: it returns the credential error too, unless a block ends
    the call before, by returning the [output_schema] error or by letting go
    an exception of [json.loads] that is no [JSONDecodeError]. *)
Theorem no_credential_no_request (c : ToolCall) (ctx : Context) (w : World) :
  no_credential ctx ->
  run (call_tool c ctx) w
    = (match left_before_key w c with
       | Some out => out
       | None => Return (error_envelope missing_api_key_msg)
       end, [])
  /\ (is_agentic c = false -> left_before_key w c = None)
  /\ (forall v, left_before_key w c = Some (Return v) ->
        exists msg, v = error_envelope msg /\ contains msg "output_schema")
  /\ (forall e, left_before_key w c = Some (Raise e) ->
        is_JSONDecodeError e = false
        /\ exists s, json_loads w s = DecodeRaised e)
  /\ contains missing_api_key_msg "X-API-Key"
  /\ contains missing_api_key_msg "scrapegraphApiKey".
Proof.
  intros H. apply no_credential_resolved in H.
  split; [| split; [| split; [| split; [| exact missing_api_key_msg_names_both]]]].
  - destruct c; unfold_tools; rewrite ?get_api_key_run, ?H; cbn; try reflexivity.
    destruct (normalize_steps (json_loads w) steps); cbn; [| reflexivity].
    destruct (normalize_output_schema (json_loads w) output_schema);
      rewrite ?get_api_key_run, ?H; reflexivity.
  - destruct c; cbn; try reflexivity; discriminate.
  - destruct c; cbn; try discriminate. intros v.
    destruct (normalize_steps (json_loads w) steps); [| discriminate].
    destruct (normalize_output_schema (json_loads w) output_schema) eqn:E;
      try discriminate.
    intros V. injection V as <-. exact (early_return_is_envelope _ _ _ E).
  - destruct c; cbn; try discriminate. intros e.
    destruct (normalize_steps (json_loads w) steps) eqn:S.
    + destruct (normalize_output_schema (json_loads w) output_schema) eqn:E;
        try discriminate.
      intros V. injection V as <-.
      destruct (escape_is_raised _ _ _ E) as (J & s & _ & D). eauto.
    + intros V. injection V as <-.
      destruct (steps_raise_is_raised _ _ _ S) as (J & s & _ & D). eauto.
Qed.

Lemma no_credential_no_request_witness :
  no_credential ctx_without_key
  /\ run (call_tool (Markdownify "https://example.com") ctx_without_key)
         (world_answering ok_empty_object)
     = (Return (error_envelope missing_api_key_msg), []).
Proof.
  split; [split; reflexivity |].
  apply (no_credential_no_request (Markdownify "https://example.com")
           ctx_without_key (world_answering ok_empty_object)).
  split; reflexivity.
Defined.

(** ** Upstream errors (C4) *)

Lemma error_msg_contains (r : Response) :
  contains (ScapeGraphClient.error_msg r) (str_of_int (status_code r))
  /\ contains (ScapeGraphClient.error_msg r) (text r).
Proof.
  unfold ScapeGraphClient.error_msg. split; auto 6 with strings.
Qed.

Lemma status_error_message_contains (url : string) (r : Response) :
  contains (httpx.status_error_message url r) (str_of_int (status_code r)).
Proof.
  unfold httpx.status_error_message. auto 6 with strings.
Qed.

Lemma not_success_not_200 (r : Response) :
  httpx.is_success r = false -> (status_code r =? 200) = false.
Proof.
  unfold httpx.is_success. intros H.
  destruct (status_code r =? 200) eqn:E; [| reflexivity].
  apply Z.eqb_eq in E. rewrite E in H. discriminate H.
Qed.

(** C4, amended: when the remote end answers the request of a tool with a
    status outside 2xx, the tool returns an error envelope (nothing is
    raised) whose text contains the status code.  For the five tools that
    test the status themselves the text is ["Error <status>: <body>"] and so
    contains the body; for [scrape], [sitemap] and [agentic_scrapper] it is
    the message of [raise_for_status], built from the status line and the
    request URL. *)
Theorem upstream_error_is_enveloped
    (c : ToolCall) (ctx : Context) (w : World)
    (out : Outcome Json) (tr : Trace) (rq : Request) (r : Response) :
  run (call_tool c ctx) w = (out, tr) ->
  In rq tr ->
  upstream w rq = Responded r ->
  httpx.is_success r = false ->
  exists msg,
    out = Return (error_envelope msg)
    /\ contains msg (str_of_int (status_code r))
    /\ (if tests_status_itself c
        then msg = ScapeGraphClient.error_msg r /\ contains msg (text r)
        else msg = httpx.status_error_message (req_url rq) r).
Proof.
  intros Hrun Hin Hup Hs. pose proof (not_success_not_200 r Hs) as H200.
  revert Hrun.
  destruct c; run_tool.
  all: intros Hrun; injection Hrun as <- <-.
  all: try contradiction.
  all: destruct Hin as [<- | []].
  all: match goal with
       | H : upstream _ _ = ?o |- _ =>
           tryif constr_eq o (Responded r) then fail
           else (rewrite Hup in H; first [discriminate H | injection H as <-])
       end.
  all: rewrite ?H200, ?Hs in *; try discriminate.
  all: eexists; (split; [reflexivity |]).
  all: first [ split; [apply error_msg_contains
                      | split; [reflexivity | apply error_msg_contains]]
             | split; [apply status_error_message_contains | reflexivity] ].
Qed.

(** C4 as stated fails for the three tools that rely on
    [raise_for_status]: on HTTP 500 with body [server exploded], [scrape]
    returns the text of [httpx]'s status error, which has the status code
    and the URL but not the body. *)
Lemma scrape_error_omits_response_body :
  let msg := httpx.status_error_message
               (ScapeGraphClient.BASE_URL ++ "/scrape") server_exploded in
  run (call_tool (Scrape "https://example.com" None) ctx_with_key)
      (world_answering server_exploded)
    = (Return (error_envelope msg),
       [posted "/scrape" [("website_url", JStr "https://example.com")]])
  /\ httpx.is_success server_exploded = false
  /\ contains msg "500"
  /\ ~ contains msg "server exploded".
Proof.
  cbv zeta. split; [vm_compute; reflexivity |]. split; [reflexivity |].
  split; [apply infixb_spec | apply not_contains]; vm_compute; reflexivity.
Qed.

Lemma upstream_error_is_enveloped_witness :
  exists msg,
    fst (run (call_tool (Markdownify "https://example.com") ctx_with_key)
             (world_answering server_exploded))
      = Return (error_envelope msg)
    /\ contains msg "500"
    /\ contains msg "server exploded".
Proof.
  destruct (upstream_error_is_enveloped
              (Markdownify "https://example.com") ctx_with_key
              (world_answering server_exploded) _ _
              (posted "/markdownify" [("website_url", JStr "https://example.com")])
              server_exploded eq_refl (or_introl eq_refl) eq_refl eq_refl)
    as (msg & Hout & Hcode & Hmsg & Hbody).
  exists msg. split; [exact Hout |]. split; [exact Hcode | exact Hbody].
Defined.

(** ** The content source of [smartscraper] (C5) *)

(** C5: with none of the three content sources [smartscraper] returns an
    error envelope and sends nothing (with a key and an acceptable schema
    the error is the client's "Must provide one of ..."); with exactly one of
    them it sends one request whose payload carries that source alone. *)
Theorem smartscraper_content_source
    (w : World) (ctx : Context) (user_prompt : string)
    (output_schema : option SchemaArg)
    (number_of_scrolls total_pages : option Z)
    (render_heavy_js stealth : option bool) :
  let tool url html md :=
    run (smartscraper user_prompt ctx url html md output_schema
           number_of_scrolls total_pages render_heavy_js stealth) w in
  (exists msg, tool None None None = (Return (error_envelope msg), []))
  /\ (forall key schema,
        resolved_key ctx = Some key ->
        normalize_output_schema (json_loads w) output_schema = Proceed schema ->
        tool None None None = (Return (error_envelope must_provide_one), [])
        /\ forall content,
             sends_only "website_url" content (tool (Some content) None None)
             /\ sends_only "website_html" content (tool None (Some content) None)
             /\ sends_only "website_markdown" content (tool None None (Some content))).
Proof.
  cbv zeta. split.
  - run_tool; try (eexists; reflexivity).
    match goal with
    | H : normalize_output_schema _ _ = EarlyReturn _ |- _ =>
        apply early_return_is_envelope in H; destruct H as (msg & -> & _)
    end.
    eexists; reflexivity.
  - intros key schema Hkey Hschema. split.
    + run_tool; first [reflexivity | congruence].
    + intros content.
      destruct schema, number_of_scrolls, total_pages, render_heavy_js, stealth.
      all: repeat split; unfold sends_only; unfold_tools;
        rewrite get_api_key_run, Hkey; cbn; rewrite Hschema; cbn;
        repeat (branch; cbn).
      all: eexists; eexists; (split; [reflexivity |]).
      all: repeat split; reflexivity.
Qed.

Lemma smartscraper_content_source_witness :
  sends_only "website_html" "<p>hi</p>"
    (run (smartscraper "p" ctx_with_key None (Some "<p>hi</p>") None None
            None None None None)
         (world_answering ok_empty_object)).
Proof.
  destruct (smartscraper_content_source (world_answering ok_empty_object)
              ctx_with_key "p" None None None None None) as [_ H].
  destruct (H "sgai-test" None eq_refl eq_refl) as [_ H'].
  exact (proj1 (proj2 (H' "<p>hi</p>"))).
Defined.

(** ** [output_schema] (C6) *)

Lemma normalized_schema_has_required (decode : string -> JsonResult)
    (arg : option SchemaArg) (d : Dict) :
  normalize_output_schema decode arg = Proceed (Some d) ->
  dict_mem "required" d = true.
Proof.
  unfold normalize_output_schema.
  destruct arg as [[d0|s]|]; cbn.
  - destruct (dict_mem "required" d0) eqn:E; cbn; intros H; injection H as <-;
      [exact E | apply dict_mem_set].
  - destruct (decode s) as [[]|m|[]]; cbn; try discriminate.
    destruct (dict_mem "required" members) eqn:E; cbn; intros H;
      injection H as <-; [exact E | apply dict_mem_set].
  - discriminate.
Qed.



(** ** [extraction_mode] (C7) *)

Lemma invalid_extraction_mode_lists_both (mode : string) :
  contains (invalid_extraction_mode mode) "'ai'"
  /\ contains (invalid_extraction_mode mode) "'markdown'".
Proof.
  unfold invalid_extraction_mode.
  split; do 2 apply contains_app_r; apply infixb_spec; vm_compute; reflexivity.
Qed.

Lemma client_rejects_unknown_mode (self : ScapeGraphClient.t) (url : string)
    (prompt : option string) (mode : string) (depth max_pages : option Z)
    (same_domain_only : option bool) (w : World) (t : Trace) :
  mode <> "ai" -> mode <> "markdown" ->
  ScapeGraphClient.smartcrawler_initiate self url prompt mode depth max_pages
    same_domain_only w t
  = (Raise (ValueError (invalid_extraction_mode mode)), t).
Proof.
  intros Hai Hmd. apply String.eqb_neq in Hai, Hmd.
  unfold ScapeGraphClient.smartcrawler_initiate, bind, raise.
  rewrite Hmd, Hai. reflexivity.
Qed.

(** C7: [smartcrawler_initiate].  In mode ["ai"] without a prompt, and in
    any mode other than the two known ones, the tool returns an error
    envelope and sends nothing; with a key resolved the errors are the
    client's, the second one listing ['ai'] and ['markdown'].  In mode
    ["markdown"] one request goes out; its payload has [markdown_only: true]
    and no [prompt], supplied or not, and a 200 answer is returned
    decoded. *)
Theorem smartcrawler_extraction_mode
    (w : World) (ctx : Context) (url : string)
    (depth max_pages : option Z) (same_domain_only : option bool) :
  let tool prompt mode :=
    run (smartcrawler_initiate url ctx prompt mode depth max_pages
           same_domain_only) w in
  (exists msg, tool None "ai" = (Return (error_envelope msg), []))
  /\ (forall prompt mode, mode <> "ai" -> mode <> "markdown" ->
        exists msg, tool prompt mode = (Return (error_envelope msg), []))
  /\ (forall key, resolved_key ctx = Some key ->
        tool None "ai" = (Return (error_envelope prompt_required), [])
        /\ (forall prompt mode, mode <> "ai" -> mode <> "markdown" ->
              tool prompt mode
                = (Return (error_envelope (invalid_extraction_mode mode)), [])
              /\ contains (invalid_extraction_mode mode) "'ai'"
              /\ contains (invalid_extraction_mode mode) "'markdown'")
        /\ (forall prompt, exists rq payload,
              snd (tool prompt "markdown") = [rq]
              /\ req_json rq = Some payload
              /\ dict_get "markdown_only" payload = Some (JBool true)
              /\ dict_get "prompt" payload = None
              /\ (forall r v,
                    upstream w rq = Responded r ->
                    status_code r = 200 ->
                    json_loads_bytes w (content r) = Decoded v ->
                    fst (tool prompt "markdown") = Return v))).
Proof.
  cbv zeta. split; [| split].
  - run_tool; eexists; reflexivity.
  - intros prompt mode Hai Hmd.
    unfold run, smartcrawler_initiate, try_except, bind.
    rewrite get_api_key_run. destruct (resolved_key ctx).
    + rewrite client_rejects_unknown_mode by assumption. eexists; reflexivity.
    + eexists; reflexivity.
  - intros key Hkey. split; [| split].
    + run_tool; first [reflexivity | congruence].
    + intros prompt mode Hai Hmd. split.
      * unfold run, smartcrawler_initiate, try_except, bind.
        rewrite get_api_key_run, Hkey.
        rewrite client_rejects_unknown_mode by assumption. reflexivity.
      * apply invalid_extraction_mode_lists_both.
    + intros prompt.
      destruct depth, max_pages, same_domain_only.
      all: unfold_tools; rewrite get_api_key_run, Hkey; cbn.
      all: eexists; eexists.
      all: split; [repeat (branch; cbn); reflexivity |].
      all: split; [reflexivity |].
      all: split; [reflexivity |].
      all: split; [reflexivity |].
      all: intros r v Hup H200 Hjson; rewrite Hup; cbn.
      all: rewrite H200; cbn; rewrite Hjson; reflexivity.
Qed.

Lemma smartcrawler_extraction_mode_witness :
  run (smartcrawler_initiate "https://example.com" ctx_with_key (Some "p")
         "other" None None None)
      (world_answering ok_empty_object)
  = (Return (error_envelope (invalid_extraction_mode "other")), []).
Proof.
  destruct (smartcrawler_extraction_mode (world_answering ok_empty_object)
              ctx_with_key "https://example.com" None None None)
    as (_ & _ & H).
  destruct (H "sgai-test" eq_refl) as (_ & H' & _).
  apply (H' (Some "p") "other"); intros E; discriminate E.
Defined.

(** ** [steps] (C8, C9) *)




(** C9, at an input the claim covers: the text [[1, 2]] decodes to a list
    of numbers, which the [steps] block takes as it is; [agentic_scrapper]
    then posts [steps: [1, 2]], whatever the remote end answers. *)
Theorem decoded_steps_are_not_checked
    (decode_body : string -> JsonResult) (answer : Request -> NetOutcome) :
  let w := {| json_loads := RefJson.loads;
              json_loads_bytes := decode_body;
              upstream := answer |} in
  normalize_steps RefJson.loads (Some (StepsStr "[1, 2]"))
    = Return (Some [JInt 1; JInt 2])
  /\ forallb is_str [JInt 1; JInt 2] = false
  /\ sent_payload
       (run (agentic_scrapper "https://example.com" ctx_with_key None None
               (Some (StepsStr "[1, 2]")) None None None) w)
     = Some [("url", JStr "https://example.com");
             ("steps", JArr [JInt 1; JInt 2])].
Proof.
  cbv zeta. split; [vm_compute; reflexivity |]. split; [reflexivity |].
  unfold sent_payload, run, agentic_scrapper, bind, the_json_loads, returned.
  cbn [json_loads].
  replace (normalize_steps RefJson.loads (Some (StepsStr "[1, 2]")))
    with (Return (Some [JInt 1; JInt 2])) by (vm_compute; reflexivity).
  run_tool; reflexivity.
Qed.

(** ** The shape of every result (C10) *)




(** * Further properties of the code *)

(** ** [get_api_key] *)

(** X1: a non-empty [x-api-key] header is the key, whatever the session
    configuration holds; nothing is sent to find it. *)
Theorem header_key_takes_precedence
    (ctx : Context) (key : string) (w : World) (t : Trace) :
  header_api_key ctx = Some key -> key <> "" ->
  get_api_key ctx w t = (Return key, t).
Proof.
  intros H N. rewrite get_api_key_run. unfold resolved_key. rewrite H.
  destruct key; [contradiction | reflexivity].
Qed.

Lemma header_key_takes_precedence_witness :
  get_api_key ctx_both_keys (world_answering ok_empty_object) []
  = (Return "sgai-header", []).
Proof.
  apply header_key_takes_precedence; [reflexivity | discriminate].
Defined.

(** X2: when the header is missing, empty, or there is no HTTP request at
    all, a non-empty [scrapegraph_api_key] of the session configuration is
    the key. *)
Theorem session_key_is_the_fallback
    (ctx : Context) (key : string) (w : World) (t : Trace) :
  truthy (header_api_key ctx) = false ->
  session_api_key ctx = Some key -> key <> "" ->
  get_api_key ctx w t = (Return key, t).
Proof.
  intros H S N. rewrite get_api_key_run. unfold resolved_key. rewrite H, S.
  destruct key; [contradiction | reflexivity].
Qed.

Lemma session_key_is_the_fallback_witness :
  get_api_key ctx_empty_header_session_key (world_answering ok_empty_object) []
  = (Return "sgai-session", []).
Proof.
  apply session_key_is_the_fallback; [reflexivity | reflexivity | discriminate].
Defined.

(** X3: [get_api_key] raises exactly when neither source has a non-empty
    key, and what it raises is the [ValueError] with the two-path message; a
    key it returns is never empty and is the header's or the session's. *)
Theorem get_api_key_outcome (ctx : Context) (w : World) (t : Trace) :
  (no_credential ctx <->
     get_api_key ctx w t = (Raise (ValueError missing_api_key_msg), t))
  /\ (forall e, fst (get_api_key ctx w t) = Raise e -> no_credential ctx)
  /\ (forall key, fst (get_api_key ctx w t) = Return key ->
        key <> ""
        /\ (header_api_key ctx = Some key \/ session_api_key ctx = Some key)).
Proof.
  rewrite get_api_key_run. pose proof (no_credential_resolved ctx) as NC.
  unfold resolved_key in *.
  destruct (header_api_key ctx) as [[|a k]|];
    destruct (session_api_key ctx) as [[|b k']|]; cbn in *.
  all: repeat match goal with |- _ /\ _ => split | |- _ <-> _ => split end.
  all: try (intros; congruence).
  all: try (intros; apply NC; reflexivity).
  all: try (intros H; apply NC in H; discriminate H).
  all: try (intros key E; injection E as <-; split; [discriminate | auto]).
Qed.

Lemma get_api_key_outcome_witness :
  no_credential ctx_without_key.
Proof.
  destruct (get_api_key_outcome ctx_without_key
              (world_answering ok_empty_object) []) as (_ & H & _).
  apply (H (ValueError missing_api_key_msg)). reflexivity.
Defined.

(** ** What goes on the wire *)

Lemma resolved_key_nonempty (ctx : Context) (key : string) :
  resolved_key ctx = Some key -> key <> "".
Proof.
  unfold resolved_key.
  destruct (header_api_key ctx) as [[|a k]|];
    destruct (session_api_key ctx) as [[|b k']|]; cbn;
    intros E; try discriminate E; injection E as <-; discriminate.
Qed.

(** The trace of a tool run is empty or the one request to the tool's
    endpoint, with the headers of the resolved key. *)
Lemma trace_of_run (c : ToolCall) (ctx : Context) (w : World) :
  snd (run (call_tool c ctx) w) = []
  \/ exists key body timeout,
       resolved_key ctx = Some key
       /\ (is_fetch c = true <-> body = None)
       /\ snd (run (call_tool c ctx) w)
          = [{| req_method := if is_fetch c then GET else POST;
                req_url := ScapeGraphClient.BASE_URL ++ endpoint_path c;
                req_headers := client_headers key;
                req_json := body;
                req_timeout := timeout |}].
Proof.
  destruct c; run_tool.
  all: try (left; reflexivity).
  all: right; eexists; eexists; eexists; (split; [reflexivity |]).
  all: split; [| reflexivity].
  all: split; intros E; first [discriminate E | reflexivity].
Qed.

(** X4: a tool sends at most one request per call: nothing is retried, and
    nothing is sent before the one call of the client. *)
Theorem at_most_one_request (c : ToolCall) (ctx : Context) (w : World) :
  (length (snd (run (call_tool c ctx) w)) <= 1)%nat.
Proof.
  destruct (trace_of_run c ctx w) as [E | (key & body & timeout & _ & _ & E)];
    rewrite E; cbn; lia.
Qed.

(** X5: every request a tool sends carries the key [get_api_key] resolved
    for the call, as [SGAI-APIKEY], beside the JSON content type; the key is
    never empty. *)
Theorem request_carries_resolved_key
    (c : ToolCall) (ctx : Context) (w : World) (rq : Request) :
  In rq (snd (run (call_tool c ctx) w)) ->
  exists key,
    resolved_key ctx = Some key /\ key <> ""
    /\ req_headers rq = [("SGAI-APIKEY", key); ("Content-Type", "application/json")].
Proof.
  intros Hin.
  destruct (trace_of_run c ctx w) as [E | (key & body & timeout & K & _ & E)];
    rewrite E in Hin; [contradiction |].
  destruct Hin as [<- | []]. exists key.
  split; [exact K |]. split; [exact (resolved_key_nonempty _ _ K) | reflexivity].
Qed.

Lemma request_carries_resolved_key_witness :
  exists key,
    resolved_key ctx_with_key = Some key /\ key <> ""
    /\ req_headers (posted "/sitemap" [("website_url", JStr "https://example.com")])
       = [("SGAI-APIKEY", key); ("Content-Type", "application/json")].
Proof.
  apply (request_carries_resolved_key (Sitemap "https://example.com")
           ctx_with_key (world_answering ok_empty_object)).
  left. reflexivity.
Defined.

(** X6: every request goes to the tool's own endpoint below [BASE_URL];
    [smartcrawler_fetch_results] is a [GET] without a body at
    [/crawl/<request_id>], every other tool a [POST] with a JSON body. *)
Theorem request_goes_to_endpoint
    (c : ToolCall) (ctx : Context) (w : World) (rq : Request) :
  In rq (snd (run (call_tool c ctx) w)) ->
  req_url rq = ScapeGraphClient.BASE_URL ++ endpoint_path c
  /\ (if is_fetch c
      then req_method rq = GET /\ req_json rq = None
      else req_method rq = POST /\ exists payload, req_json rq = Some payload).
Proof.
  intros Hin.
  destruct (trace_of_run c ctx w) as [E | (key & body & timeout & _ & B & E)];
    rewrite E in Hin; [contradiction |].
  destruct Hin as [<- | []]. cbn. split; [reflexivity |].
  destruct (is_fetch c).
  - split; [reflexivity | apply B; reflexivity].
  - split; [reflexivity |]. destruct body as [payload|].
    + exists payload. reflexivity.
    + assert (false = true) as F by (apply B; reflexivity). discriminate F.
Qed.

Lemma request_goes_to_endpoint_witness :
  req_url {| req_method := GET;
             req_url := "https://api.scrapegraphai.com/v1/crawl/req_1";
             req_headers := client_headers "sgai-test";
             req_json := None;
             req_timeout := 120 # 1 |}
  = ScapeGraphClient.BASE_URL ++ endpoint_path (SmartcrawlerFetchResults "req_1").
Proof.
  apply (request_goes_to_endpoint (SmartcrawlerFetchResults "req_1")
           ctx_with_key (world_answering ok_empty_object)).
  left. reflexivity.
Defined.

(** ** What comes back *)

(** After [run_tool]: the request is the one in the trace, and the wire's
    answer to it is the one assumed in [Hup]. *)
Ltac same_answer Hin Hup :=
  cbn; intros Hin; try contradiction; destruct Hin as [<- | []];
  match goal with
  | H : upstream _ _ = _ |- _ =>
      tryif constr_eq H Hup then fail
      else (rewrite Hup in H; first [discriminate H | injection H as <-])
  end.

(** X7: when the remote end answers 200 with a body that decodes, every
    tool returns the decoded body as it is. *)
Theorem ok_answer_is_returned_decoded
    (c : ToolCall) (ctx : Context) (w : World) (rq : Request)
    (r : Response) (v : Json) :
  In rq (snd (run (call_tool c ctx) w)) ->
  upstream w rq = Responded r ->
  status_code r = 200 ->
  json_loads_bytes w (content r) = Decoded v ->
  fst (run (call_tool c ctx) w) = Return v.
Proof.
  intros Hin Hup H200 Hjson. revert Hin.
  destruct c; run_tool.
  all: same_answer Hin Hup.
  all: unfold httpx.is_success in *; rewrite ?H200 in *; cbn in *.
  all: congruence.
Qed.

Lemma ok_answer_is_returned_decoded_witness :
  fst (run (call_tool (Searchscraper "rocq" None None) ctx_with_key)
           (world_answering ok_empty_object))
  = Return (JObj []).
Proof.
  apply (ok_answer_is_returned_decoded _ _ _
           (posted "/searchscraper" [("user_prompt", JStr "rocq")])
           ok_empty_object);
    [left; reflexivity | reflexivity | reflexivity | vm_compute; reflexivity].
Defined.

(** X8: a 2xx answer other than 200 divides the tools.  The five whose
    client method tests [status_code != 200] return the
    ["Error <status>: <body>"] envelope; [scrape], [sitemap] and
    [agentic_scrapper], which rely on [raise_for_status], return the decoded
    body. *)
Theorem other_2xx_answer_divides_the_tools
    (c : ToolCall) (ctx : Context) (w : World) (rq : Request) (r : Response) :
  In rq (snd (run (call_tool c ctx) w)) ->
  upstream w rq = Responded r ->
  httpx.is_success r = true ->
  status_code r <> 200 ->
  if tests_status_itself c
  then fst (run (call_tool c ctx) w)
       = Return (error_envelope (ScapeGraphClient.error_msg r))
  else forall v, json_loads_bytes w (content r) = Decoded v ->
       fst (run (call_tool c ctx) w) = Return v.
Proof.
  intros Hin Hup Hs H200. apply Z.eqb_neq in H200. revert Hin.
  destruct c; cbn [tests_status_itself]; try intros Hin v Hjson; try revert Hin;
    run_tool.
  all: same_answer Hin Hup.
  all: rewrite ?H200, ?Hs in *; cbn in *.
  all: congruence.
Qed.

Lemma other_2xx_answer_divides_the_tools_witness :
  fst (run (call_tool (Markdownify "https://example.com") ctx_with_key)
           (world_answering created_empty_object))
  = Return (error_envelope "Error 201: {}").
Proof.
  apply (other_2xx_answer_divides_the_tools
           (Markdownify "https://example.com") ctx_with_key
           (world_answering created_empty_object)
           (posted "/markdownify" [("website_url", JStr "https://example.com")])
           created_empty_object);
    [left; reflexivity | reflexivity | reflexivity | discriminate].
Defined.

(** X9: when the remote end answers 200 with a body [json.loads] rejects,
    every tool returns an error envelope with the decoder's message: the
    [JSONDecodeError] of [response.json()] does not escape. *)
Theorem undecodable_body_is_enveloped
    (c : ToolCall) (ctx : Context) (w : World) (rq : Request)
    (r : Response) (m : string) :
  In rq (snd (run (call_tool c ctx) w)) ->
  upstream w rq = Responded r ->
  status_code r = 200 ->
  json_loads_bytes w (content r) = DecodeError m ->
  fst (run (call_tool c ctx) w) = Return (error_envelope m).
Proof.
  intros Hin Hup H200 Hjson. revert Hin.
  destruct c; run_tool.
  all: same_answer Hin Hup.
  all: unfold httpx.is_success in *; rewrite ?H200 in *; cbn in *.
  all: congruence.
Qed.

Lemma undecodable_body_is_enveloped_witness :
  fst (run (call_tool (Scrape "https://example.com" None) ctx_with_key)
           (world_answering ok_not_json))
  = Return (error_envelope RefJson.expecting_value).
Proof.
  apply (undecodable_body_is_enveloped _ _ _
           (posted "/scrape" [("website_url", JStr "https://example.com")])
           ok_not_json);
    [left; reflexivity | reflexivity | reflexivity | vm_compute; reflexivity].
Defined.

(** X10: a transport failure of the one request is returned as an error
    envelope by every tool.  A timeout reads ["Request timed out: ..."] in
    [agentic_scrapper] and is the bare [str(e)] elsewhere; any other
    transport error is the bare [str(e)] everywhere. *)
Theorem transport_failure_is_enveloped
    (c : ToolCall) (ctx : Context) (w : World) (rq : Request) (m : string) :
  In rq (snd (run (call_tool c ctx) w)) ->
  (upstream w rq = TimedOut m ->
     fst (run (call_tool c ctx) w)
     = Return (error_envelope
                 (if is_agentic c then "Request timed out: " ++ m else m)))
  /\ (upstream w rq = Unreachable m ->
        fst (run (call_tool c ctx) w) = Return (error_envelope m)).
Proof.
  intros Hin. split; intros Hup; revert Hin.
  all: destruct c; run_tool.
  all: same_answer Hin Hup.
  all: reflexivity.
Qed.

Lemma transport_failure_is_enveloped_witness :
  fst (run (call_tool (AgenticScrapper "https://example.com" None None None
                         None None None) ctx_with_key)
           (world_timing_out "timed out"))
  = Return (error_envelope "Request timed out: timed out").
Proof.
  apply (transport_failure_is_enveloped
           (AgenticScrapper "https://example.com" None None None None None None)
           ctx_with_key (world_timing_out "timed out")
           (posted "/agentic-scrapper" [("url", JStr "https://example.com")])
           "timed out");
    [left; reflexivity | reflexivity].
Defined.

(** ** Payloads *)

Lemma dict_get_set_opt_same (k : string) (x : option Json) (d : Dict) :
  dict_get k (dict_set_opt k x d)
  = match x with Some v => Some v | None => dict_get k d end.
Proof. destruct x; cbn; [apply dict_get_set_same | reflexivity]. Qed.

(** From here on the payload builders keep their [dict_set_opt]s folded. *)
Arguments dict_set_opt : simpl never.

(** Lookups in a payload: through the optional settings down to the
    literal dictionary underneath. *)
Ltac payload_lookup :=
  unfold dict_mem;
  repeat first
    [ rewrite dict_get_set_opt_same
    | rewrite dict_get_set_opt_other by reflexivity ].

(** The request of [smartscraper], once the schema block lets it through:
    none without a key or without a content source, else the one carrying
    the first source present. *)
Lemma smartscraper_trace
    (w : World) (ctx : Context) (user_prompt : string)
    (website_url website_html website_markdown : option string)
    (output_schema : option SchemaArg) (schema : option Dict)
    (number_of_scrolls total_pages : option Z)
    (render_heavy_js stealth : option bool) :
  normalize_output_schema (json_loads w) output_schema = Proceed schema ->
  snd (run (smartscraper user_prompt ctx website_url website_html
              website_markdown output_schema number_of_scrolls total_pages
              render_heavy_js stealth) w)
  = match resolved_key ctx,
          match website_url, website_html, website_markdown with
          | Some u, _, _ => Some ("website_url", u)
          | None, Some h, _ => Some ("website_html", h)
          | None, None, Some m => Some ("website_markdown", m)
          | None, None, None => None
          end
    with
    | Some key, Some (source, content) =>
        [post_request key "/smartscraper"
           (dict_set_opt "stealth" (option_map JBool stealth)
              (dict_set_opt "render_heavy_js" (option_map JBool render_heavy_js)
                 (dict_set_opt "total_pages" (option_map JInt total_pages)
                    (dict_set_opt "number_of_scrolls"
                       (option_map JInt number_of_scrolls)
                       (dict_set_opt "output_schema" (option_map JObj schema)
                          [("user_prompt", JStr user_prompt);
                           (source, JStr content)])))))
           (120 # 1)]
    | _, _ => []
    end.
Proof.
  intros Hschema. unfold_tools. rewrite get_api_key_run.
  destruct (resolved_key ctx); cbn; [rewrite Hschema | reflexivity].
  destruct website_url, website_html, website_markdown; cbn;
    repeat (branch; cbn); reflexivity.
Qed.

(** X11: when several content sources are given, [smartscraper] does not
    reject the call: it sends [website_url] alone if that is present, and
    otherwise [website_html] alone, whatever else was supplied. *)
Theorem smartscraper_prefers_url_then_html
    (w : World) (ctx : Context) (user_prompt : string)
    (output_schema : option SchemaArg)
    (number_of_scrolls total_pages : option Z)
    (render_heavy_js stealth : option bool)
    (key : string) (schema : option Dict) :
  resolved_key ctx = Some key ->
  normalize_output_schema (json_loads w) output_schema = Proceed schema ->
  let tool url html md :=
    run (smartscraper user_prompt ctx url html md output_schema
           number_of_scrolls total_pages render_heavy_js stealth) w in
  (forall u html md, sends_only "website_url" u (tool (Some u) html md))
  /\ (forall h md, sends_only "website_html" h (tool None (Some h) md)).
Proof.
  intros Hkey Hschema. cbv zeta. unfold sends_only, content_source_keys.
  split; intros; rewrite (smartscraper_trace _ _ _ _ _ _ _ _ _ _ _ _ Hschema), Hkey.
  all: eexists; eexists; (split; [reflexivity |]); (split; [reflexivity |]).
  all: cbn [filter]; payload_lookup; split; reflexivity.
Qed.

Lemma smartscraper_prefers_url_then_html_witness :
  sends_only "website_url" "https://example.com"
    (run (smartscraper "p" ctx_with_key (Some "https://example.com")
            (Some "<p>hi</p>") (Some "# hi") None None None None None)
         (world_answering ok_empty_object)).
Proof.
  destruct (smartscraper_prefers_url_then_html (world_answering ok_empty_object)
              ctx_with_key "p" None None None None None "sgai-test" None
              eq_refl eq_refl) as [H _].
  exact (H "https://example.com" (Some "<p>hi</p>") (Some "# hi")).
Defined.

(** X12: in the payload [smartscraper] sends, [user_prompt] is always
    there and each optional parameter is there exactly when the caller gave
    it, with the value given: [number_of_scrolls=0] or [stealth=False] are
    sent, an absent one is left out, and [output_schema] is the normalised
    schema. *)
Theorem smartscraper_optional_parameters
    (w : World) (ctx : Context) (user_prompt : string)
    (website_url website_html website_markdown : option string)
    (output_schema : option SchemaArg) (schema : option Dict)
    (number_of_scrolls total_pages : option Z)
    (render_heavy_js stealth : option bool) (rq : Request) :
  normalize_output_schema (json_loads w) output_schema = Proceed schema ->
  In rq (snd (run (smartscraper user_prompt ctx website_url website_html
                     website_markdown output_schema number_of_scrolls
                     total_pages render_heavy_js stealth) w)) ->
  exists payload,
    req_json rq = Some payload
    /\ dict_get "user_prompt" payload = Some (JStr user_prompt)
    /\ dict_get "output_schema" payload = option_map JObj schema
    /\ dict_get "number_of_scrolls" payload = option_map JInt number_of_scrolls
    /\ dict_get "total_pages" payload = option_map JInt total_pages
    /\ dict_get "render_heavy_js" payload = option_map JBool render_heavy_js
    /\ dict_get "stealth" payload = option_map JBool stealth.
Proof.
  intros Hschema. rewrite (smartscraper_trace _ _ _ _ _ _ _ _ _ _ _ _ Hschema).
  destruct (resolved_key ctx); [| contradiction].
  destruct website_url, website_html, website_markdown; try contradiction.
  all: intros [<- | []]; eexists; (split; [reflexivity |]).
  all: repeat match goal with |- _ /\ _ => split end; payload_lookup;
    repeat match goal with |- context [option_map _ ?o] => is_var o; destruct o end;
    reflexivity.
Qed.

Lemma smartscraper_optional_parameters_witness :
  exists payload,
    req_json (post_request "sgai-test" "/smartscraper"
                [("user_prompt", JStr "p"); ("website_html", JStr "<p>hi</p>");
                 ("number_of_scrolls", JInt 0); ("stealth", JBool false)]
                (120 # 1)) = Some payload
    /\ dict_get "number_of_scrolls" payload = Some (JInt 0)
    /\ dict_get "total_pages" payload = None
    /\ dict_get "stealth" payload = Some (JBool false).
Proof.
  destruct (smartscraper_optional_parameters (world_answering ok_empty_object)
              ctx_with_key "p" None (Some "<p>hi</p>") None None None
              (Some 0) None None (Some false)
              (post_request "sgai-test" "/smartscraper"
                 [("user_prompt", JStr "p"); ("website_html", JStr "<p>hi</p>");
                  ("number_of_scrolls", JInt 0); ("stealth", JBool false)]
                 (120 # 1))
              eq_refl (or_introl eq_refl))
    as (payload & P & _ & _ & S & T & _ & St).
  exists payload. repeat split; assumption.
Defined.

(** The request of [agentic_scrapper], once the schema block lets it
    through: none if the [steps] block raises or there is no key, else the
    one below. *)
Lemma agentic_scrapper_trace
    (w : World) (ctx : Context) (url : string) (user_prompt : option string)
    (output_schema : option SchemaArg) (schema : option Dict)
    (steps : option StepsArg) (ai_extraction persistent_session : option bool)
    (timeout_seconds : option Q) :
  normalize_output_schema (json_loads w) output_schema = Proceed schema ->
  snd (run (agentic_scrapper url ctx user_prompt output_schema steps
              ai_extraction persistent_session timeout_seconds) w)
  = match normalize_steps (json_loads w) steps, resolved_key ctx with
    | Return normalized_steps, Some key =>
        [post_request key "/agentic-scrapper"
           (dict_set_opt "persistent_session" (option_map JBool persistent_session)
              (dict_set_opt "ai_extraction" (option_map JBool ai_extraction)
                 (dict_set_opt "steps" (option_map JArr normalized_steps)
                    (dict_set_opt "output_schema" (option_map JObj schema)
                       (dict_set_opt "user_prompt" (option_map JStr user_prompt)
                          [("url", JStr url)])))))
           (match timeout_seconds with Some s => s | None => 120 # 1 end)]
    | _, _ => []
    end.
Proof.
  intros Hschema. unfold_tools. cbn.
  destruct (normalize_steps (json_loads w) steps); cbn; [| reflexivity].
  rewrite Hschema, get_api_key_run.
  destruct (resolved_key ctx); cbn; [| reflexivity].
  repeat (branch; cbn); reflexivity.
Qed.

(** X13: in the payload [agentic_scrapper] sends, [url] is always there,
    [steps] is the normalised list whenever the caller gave any value (also
    the empty list), and the other optional parameters are there exactly
    when given.  The request's timeout is [timeout_seconds] when given and
    the client's 120 seconds otherwise. *)
Theorem agentic_scrapper_payload_and_timeout
    (w : World) (ctx : Context) (url : string) (user_prompt : option string)
    (output_schema : option SchemaArg) (schema : option Dict)
    (steps : option StepsArg) (ai_extraction persistent_session : option bool)
    (timeout_seconds : option Q) (rq : Request) :
  normalize_output_schema (json_loads w) output_schema = Proceed schema ->
  In rq (snd (run (agentic_scrapper url ctx user_prompt output_schema steps
                     ai_extraction persistent_session timeout_seconds) w)) ->
  req_timeout rq = match timeout_seconds with Some s => s | None => 120 # 1 end
  /\ exists payload normalized_steps,
       req_json rq = Some payload
       /\ normalize_steps (json_loads w) steps = Return normalized_steps
       /\ dict_get "url" payload = Some (JStr url)
       /\ dict_get "user_prompt" payload = option_map JStr user_prompt
       /\ dict_get "output_schema" payload = option_map JObj schema
       /\ dict_get "steps" payload = option_map JArr normalized_steps
       /\ dict_get "ai_extraction" payload = option_map JBool ai_extraction
       /\ dict_get "persistent_session" payload
          = option_map JBool persistent_session.
Proof.
  intros Hschema. rewrite (agentic_scrapper_trace _ _ _ _ _ _ _ _ _ _ Hschema).
  destruct (normalize_steps (json_loads w) steps) as [normalized_steps|];
    [| contradiction].
  destruct (resolved_key ctx); [| contradiction].
  intros [<- | []]. split; [reflexivity |].
  eexists; exists normalized_steps; (split; [reflexivity |]).
  repeat match goal with |- _ /\ _ => split end; payload_lookup;
    repeat match goal with |- context [option_map _ ?o] => is_var o; destruct o end;
    reflexivity.
Qed.

Lemma agentic_scrapper_payload_and_timeout_witness :
  req_timeout (post_request "sgai-test" "/agentic-scrapper"
                 [("url", JStr "https://example.com"); ("steps", JArr [])]
                 (30 # 1))
  = 30 # 1.
Proof.
  apply (agentic_scrapper_payload_and_timeout (world_answering ok_empty_object)
           ctx_with_key "https://example.com" None None None
           (Some (StepsStr "[]")) None None (Some (30 # 1))
           (post_request "sgai-test" "/agentic-scrapper"
              [("url", JStr "https://example.com"); ("steps", JArr [])]
              (30 # 1))
           eq_refl).
  left. vm_compute. reflexivity.
Defined.

(** The request of [smartcrawler_initiate] in mode ["ai"] with a prompt. *)
Lemma smartcrawler_ai_trace
    (w : World) (ctx : Context) (url prompt : string)
    (depth max_pages : option Z) (same_domain_only : option bool) :
  snd (run (smartcrawler_initiate url ctx (Some prompt) "ai" depth max_pages
              same_domain_only) w)
  = match resolved_key ctx with
    | Some key =>
        [post_request key "/crawl"
           (dict_set_opt "same_domain_only" (option_map JBool same_domain_only)
              (dict_set_opt "max_pages" (option_map JInt max_pages)
                 (dict_set_opt "depth" (option_map JInt depth)
                    [("url", JStr url); ("prompt", JStr prompt)])))
           (120 # 1)]
    | None => []
    end.
Proof.
  unfold_tools. rewrite get_api_key_run.
  destruct (resolved_key ctx); cbn; [| reflexivity].
  repeat (branch; cbn); reflexivity.
Qed.

(** X14: in mode ["ai"] any prompt that is not [None], the empty string
    included, is forwarded as it is; the payload has no [markdown_only],
    and [depth], [max_pages] and [same_domain_only] are there exactly when
    given, unchecked. *)
Theorem smartcrawler_ai_payload
    (w : World) (ctx : Context) (url prompt : string)
    (depth max_pages : option Z) (same_domain_only : option bool)
    (rq : Request) :
  In rq (snd (run (smartcrawler_initiate url ctx (Some prompt) "ai" depth
                     max_pages same_domain_only) w)) ->
  exists payload,
    req_json rq = Some payload
    /\ dict_get "url" payload = Some (JStr url)
    /\ dict_get "prompt" payload = Some (JStr prompt)
    /\ dict_get "markdown_only" payload = None
    /\ dict_get "depth" payload = option_map JInt depth
    /\ dict_get "max_pages" payload = option_map JInt max_pages
    /\ dict_get "same_domain_only" payload = option_map JBool same_domain_only.
Proof.
  rewrite smartcrawler_ai_trace.
  destruct (resolved_key ctx); [| contradiction].
  intros [<- | []]. eexists; (split; [reflexivity |]).
  repeat match goal with |- _ /\ _ => split end; payload_lookup;
    repeat match goal with |- context [option_map _ ?o] => is_var o; destruct o end;
    reflexivity.
Qed.

Lemma smartcrawler_ai_payload_witness :
  exists payload,
    req_json (post_request "sgai-test" "/crawl"
                [("url", JStr "https://example.com"); ("prompt", JStr "");
                 ("depth", JInt (-1))] (120 # 1)) = Some payload
    /\ dict_get "prompt" payload = Some (JStr "")
    /\ dict_get "depth" payload = Some (JInt (-1)).
Proof.
  destruct (smartcrawler_ai_payload (world_answering ok_empty_object)
              ctx_with_key "https://example.com" "" (Some (-1)) None None
              (post_request "sgai-test" "/crawl"
                 [("url", JStr "https://example.com"); ("prompt", JStr "");
                  ("depth", JInt (-1))] (120 # 1))
              (or_introl eq_refl))
    as (payload & P & _ & Pr & _ & D & _).
  exists payload. repeat split; assumption.
Defined.

(** ** The schema block, once more *)

(** X15: a schema the [output_schema] block turns away never reaches the
    wire.  [agentic_scrapper] sends nothing, key or no key, and returns the
    block's error whenever its [steps] block, which comes first, has
    returned; [smartscraper] returns the block's error with nothing sent
    once it has a key. *)
Theorem rejected_schema_sends_nothing
    (w : World) (ctx : Context) (output_schema : option SchemaArg) (v : Json) :
  normalize_output_schema (json_loads w) output_schema = EarlyReturn v ->
  (forall url user_prompt steps ai_extraction persistent_session timeout_seconds,
     snd (run (agentic_scrapper url ctx user_prompt output_schema steps
                 ai_extraction persistent_session timeout_seconds) w) = []
     /\ forall normalized_steps,
          normalize_steps (json_loads w) steps = Return normalized_steps ->
          run (agentic_scrapper url ctx user_prompt output_schema steps
                 ai_extraction persistent_session timeout_seconds) w
          = (Return v, []))
  /\ (forall key user_prompt website_url website_html website_markdown
             number_of_scrolls total_pages render_heavy_js stealth,
        resolved_key ctx = Some key ->
        run (smartscraper user_prompt ctx website_url website_html
               website_markdown output_schema number_of_scrolls total_pages
               render_heavy_js stealth) w
        = (Return v, [])).
Proof.
  intros Hschema. split; intros.
  - unfold_tools. cbn.
    destruct (normalize_steps (json_loads w) steps); cbn; rewrite ?Hschema.
    + split; [reflexivity |]. intros ns E. reflexivity.
    + split; [reflexivity |]. intros ns E. discriminate E.
  - unfold_tools. rewrite get_api_key_run.
    match goal with H : resolved_key ctx = Some _ |- _ => rewrite H end.
    cbn. rewrite Hschema. reflexivity.
Qed.

Lemma rejected_schema_sends_nothing_witness :
  run (smartscraper "p" ctx_with_key (Some "https://example.com") None None
         (Some (SchemaStr "[]")) None None None None)
      (world_answering ok_empty_object)
  = (Return (error_envelope "output_schema must be a JSON object"), []).
Proof.
  destruct (rejected_schema_sends_nothing (world_answering ok_empty_object)
              ctx_with_key (Some (SchemaStr "[]"))
              (error_envelope "output_schema must be a JSON object") eq_refl)
    as [_ H].
  exact (H "sgai-test" "p" (Some "https://example.com") None None None None
           None None eq_refl).
Defined.

(** X16: whenever [smartscraper] or [agentic_scrapper] sends an
    [output_schema], it is an object with a ["required"] member. *)
Theorem sent_schema_has_required
    (c : ToolCall) (ctx : Context) (w : World) (rq : Request)
    (payload : Dict) (v : Json) :
  In rq (snd (run (call_tool c ctx) w)) ->
  req_json rq = Some payload ->
  dict_get "output_schema" payload = Some v ->
  exists d, v = JObj d /\ dict_mem "required" d = true.
Proof.
  destruct c; cbn [call_tool].
  2: { destruct (normalize_output_schema (json_loads w) output_schema)
         as [schema|e|x] eqn:N;
         [| unfold_tools; rewrite get_api_key_run;
            destruct (resolved_key ctx); cbn; rewrite ?N; cbn; contradiction ..].
       rewrite (smartscraper_trace _ _ _ _ _ _ _ _ _ _ _ _ N).
       destruct (resolved_key ctx); [| contradiction].
       destruct website_url, website_html, website_markdown; try contradiction.
       all: intros [<- | []] P; cbv [req_json post_request] in P;
         injection P as <-; payload_lookup.
       all: destruct schema as [d|]; cbn; intros E; try discriminate E.
       all: injection E as <-; exists d; split; [reflexivity |].
       all: exact (normalized_schema_has_required _ _ _ N). }
  7: { destruct (normalize_output_schema (json_loads w) output_schema)
         as [schema|e|x] eqn:N;
         [| unfold_tools; cbn;
            destruct (normalize_steps (json_loads w) steps); cbn; rewrite ?N;
            cbn; contradiction ..].
       rewrite (agentic_scrapper_trace _ _ _ _ _ _ _ _ _ _ N).
       destruct (normalize_steps (json_loads w) steps); [| contradiction].
       destruct (resolved_key ctx); [| contradiction].
       intros [<- | []] P; cbv [req_json post_request] in P;
         injection P as <-; payload_lookup.
       destruct schema as [d|]; cbn; intros E; try discriminate E.
       injection E as <-; exists d; split; [reflexivity |].
       exact (normalized_schema_has_required _ _ _ N). }
  all: run_tool; cbn; try contradiction.
  all: intros [<- | []] P; cbn in P; first [discriminate P | injection P as <-].
  all: payload_lookup; intros E; discriminate E.
Qed.

Lemma sent_schema_has_required_witness :
  exists d,
    JObj [("type", JStr "object"); ("required", JArr [])] = JObj d
    /\ dict_mem "required" d = true.
Proof.
  apply (sent_schema_has_required
           (Smartscraper "p" (Some "https://example.com") None None
              (Some (SchemaStr type_object_text)) None None None None)
           ctx_with_key (world_answering ok_empty_object)
           (post_request "sgai-test" "/smartscraper"
              [("user_prompt", JStr "p");
               ("website_url", JStr "https://example.com");
               ("output_schema",
                JObj [("type", JStr "object"); ("required", JArr [])])]
              (120 # 1))
           [("user_prompt", JStr "p");
            ("website_url", JStr "https://example.com");
            ("output_schema",
             JObj [("type", JStr "object"); ("required", JArr [])])]);
    [left; vm_compute; reflexivity | reflexivity | reflexivity].
Defined.

(** X17: the schema block never turns a native dict away and only ever
    adds ["required"]: every other member keeps its value, and a dict that
    has ["required"] comes back as it was. *)
Theorem native_schema_is_only_extended
    (decode : string -> JsonResult) (d : Dict) :
  exists d',
    normalize_output_schema decode (Some (SchemaDict d)) = Proceed (Some d')
    /\ (forall k, k <> "required" -> dict_get k d' = dict_get k d)
    /\ (forall v, dict_get "required" d = Some v -> d' = d)
    /\ (dict_get "required" d = None -> dict_get "required" d' = Some (JArr [])).
Proof.
  unfold normalize_output_schema, dict_mem.
  destruct (dict_get "required" d) as [v|] eqn:R; cbn; eexists;
    (split; [reflexivity |]).
  - split; [reflexivity |]. split; [reflexivity | discriminate].
  - split; [| split; [discriminate | intros _; apply dict_get_set_same]].
    intros k N. apply dict_get_set_other. apply String.eqb_neq. exact N.
Qed.

Lemma native_schema_is_only_extended_witness :
  exists d',
    normalize_output_schema RefJson.loads
      (Some (SchemaDict [("type", JStr "object")])) = Proceed (Some d')
    /\ dict_get "type" d' = Some (JStr "object").
Proof.
  destruct (native_schema_is_only_extended RefJson.loads
              [("type", JStr "object")]) as (d' & N & K & _).
  exists d'. split; [exact N |]. rewrite K; [reflexivity | discriminate].
Defined.

(** ** [searchscraper] and [scrape] *)

Lemma searchscraper_trace
    (w : World) (ctx : Context) (user_prompt : string)
    (num_results number_of_scrolls : option Z) :
  snd (run (searchscraper user_prompt ctx num_results number_of_scrolls) w)
  = match resolved_key ctx with
    | Some key =>
        [post_request key "/searchscraper"
           (dict_set_opt "number_of_scrolls" (option_map JInt number_of_scrolls)
              (dict_set_opt "num_results" (option_map JInt num_results)
                 [("user_prompt", JStr user_prompt)]))
           (120 # 1)]
    | None => []
    end.
Proof.
  unfold_tools. rewrite get_api_key_run.
  destruct (resolved_key ctx); cbn; [| reflexivity].
  repeat (branch; cbn); reflexivity.
Qed.

Lemma scrape_trace
    (w : World) (ctx : Context) (website_url : string)
    (render_heavy_js : option bool) :
  snd (run (scrape website_url ctx render_heavy_js) w)
  = match resolved_key ctx with
    | Some key =>
        [post_request key "/scrape"
           (dict_set_opt "render_heavy_js" (option_map JBool render_heavy_js)
              [("website_url", JStr website_url)])
           (120 # 1)]
    | None => []
    end.
Proof.
  unfold_tools. rewrite get_api_key_run.
  destruct (resolved_key ctx); cbn; [| reflexivity].
  repeat (branch; cbn); reflexivity.
Qed.

(** X18: [searchscraper] sends the prompt as given, the empty one
    included, and [num_results] and [number_of_scrolls] exactly when given
    and whatever their value; [scrape] sends the URL and [render_heavy_js]
    exactly when given.  Nothing is defaulted or checked locally. *)
Theorem searchscraper_and_scrape_payloads
    (w : World) (ctx : Context) (rq : Request) :
  (forall user_prompt num_results number_of_scrolls,
     In rq (snd (run (searchscraper user_prompt ctx num_results
                        number_of_scrolls) w)) ->
     exists payload,
       req_json rq = Some payload
       /\ dict_get "user_prompt" payload = Some (JStr user_prompt)
       /\ dict_get "num_results" payload = option_map JInt num_results
       /\ dict_get "number_of_scrolls" payload
          = option_map JInt number_of_scrolls)
  /\ (forall website_url render_heavy_js,
        In rq (snd (run (scrape website_url ctx render_heavy_js) w)) ->
        exists payload,
          req_json rq = Some payload
          /\ dict_get "website_url" payload = Some (JStr website_url)
          /\ dict_get "render_heavy_js" payload
             = option_map JBool render_heavy_js).
Proof.
  split; intros *; [rewrite searchscraper_trace | rewrite scrape_trace].
  all: destruct (resolved_key ctx); [| contradiction].
  all: intros [<- | []]; eexists; (split; [reflexivity |]).
  all: repeat match goal with |- _ /\ _ => split end; payload_lookup;
    repeat match goal with |- context [option_map _ ?o] => is_var o; destruct o end;
    reflexivity.
Qed.

Lemma searchscraper_and_scrape_payloads_witness :
  exists payload,
    req_json (post_request "sgai-test" "/searchscraper"
                [("user_prompt", JStr ""); ("num_results", JInt (-3))]
                (120 # 1)) = Some payload
    /\ dict_get "num_results" payload = Some (JInt (-3))
    /\ dict_get "number_of_scrolls" payload = None.
Proof.
  destruct (searchscraper_and_scrape_payloads (world_answering ok_empty_object)
              ctx_with_key
              (post_request "sgai-test" "/searchscraper"
                 [("user_prompt", JStr ""); ("num_results", JInt (-3))]
                 (120 # 1))) as [H _].
  destruct (H "" (Some (-3)) None (or_introl eq_refl))
    as (payload & P & _ & N & S).
  exists payload. repeat split; assumption.
Defined.
